(** * buddies_backend: the conversational ordering pipeline of [main.py]

    A shallow embedding of the deterministic core of the restaurant backend:
    the product resolver of [add_to_order_tool] (exact match, then the
    RapidFuzz fallback), the persistence tool [place_order], and the response
    normalizer of the [/agent] route [ask_agent].

    Conventions.
    - Python text is modelled as [string] (ASCII); [str.lower] is the ASCII
      lower-casing.
    - Python values that travel as JSON are the type [pyval]; a [dict] is an
      association list read by first binding and updated in place.
    - Python floats are kept abstract (class [PyFloat]): every statement below
      holds for any arithmetic, IEEE doubles included.  [QFloat] is an exact
      instance used to run the model on examples.
    - The collaborators (speech recognition, the agent runner, the JSON
      decoder, MongoDB faults, speech synthesis, the clock) are the fields of
      [Env]; the two MongoDB collections and the trace of collaborator calls
      make up the [World] threaded through the monad [M]. *)

Set Warnings "-register-all".
From Stdlib Require Import Bool Arith ZArith QArith Lia List.
From Stdlib Require Import Ascii String DecimalString.
From Stdlib Require Import Permutation.
Import ListNotations.

Local Open Scope string_scope.
Local Open Scope Z_scope.

(* ================================================================== *)
(** ** Python strings *)

Module PyStr.

(** [c.lower()] on one ASCII character. *)
Definition lower_ascii (c : ascii) : ascii :=
  let n := nat_of_ascii c in
  if (65 <=? n)%nat && (n <=? 90)%nat then ascii_of_nat (n + 32) else c.

(** [s.lower()]. *)
Fixpoint lower (s : string) : string :=
  match s with
  | EmptyString => EmptyString
  | String c t => String (lower_ascii c) (lower t)
  end.

(** [s.startswith(p)]. *)
Definition startswith (p s : string) : bool := String.prefix p s.

(** [needle in hay]: the substring test. *)
Fixpoint str_in (needle hay : string) : bool :=
  startswith needle hay ||
  match hay with
  | EmptyString => false
  | String _ t => str_in needle t
  end.

(** [s[::-1]], used to express the operations on the end of a string. *)
Fixpoint rev_string (s acc : string) : string :=
  match s with
  | EmptyString => acc
  | String c t => rev_string t (String c acc)
  end.

Definition reverse (s : string) : string := rev_string s EmptyString.

(** [s.endswith(p)]. *)
Definition endswith (p s : string) : bool :=
  startswith (reverse p) (reverse s).

(** [c.isspace()] on ASCII: TAB..CR, FS..US and the blank. *)
Definition isspace (c : ascii) : bool :=
  let n := nat_of_ascii c in
  ((9 <=? n)%nat && (n <=? 13)%nat) || ((28 <=? n)%nat && (n <=? 32)%nat).

Fixpoint lstrip (s : string) : string :=
  match s with
  | EmptyString => EmptyString
  | String c t => if isspace c then lstrip t else s
  end.

(** [s.strip()]. *)
Definition strip (s : string) : string :=
  reverse (lstrip (reverse (lstrip s))).

(** [s[start:-back]] for non-negative [start] and [back > 0]. *)
Definition slice (start back : nat) (s : string) : string :=
  substring start (String.length s - back - start) s.

(** The one-character string of a line feed. *)
Definition newline : string := String (ascii_of_nat 10) EmptyString.

(** [str(z)] for an [int]. *)
Definition str_of_int (z : Z) : string :=
  NilZero.string_of_int (Z.to_int z).

End PyStr.
Import PyStr.

(* ================================================================== *)
(** ** Python floats, abstractly *)

(** The float operations [main.py] uses.  [float_of_string s = None] stands
    for the [ValueError] of [float(s)]; [float_of_int z] is the double
    nearest to an integer within the range of doubles (the range check is
    [int_as_float], below). *)
Class PyFloat : Type := {
  flt : Type;
  float_of_string : string -> option flt;
  float_of_int : Z -> flt;
  fl_add : flt -> flt -> flt;
  fl_mul : flt -> flt -> flt;
  fl_is_zero : flt -> bool;
  fl_str : flt -> string
}.

(* ================================================================== *)
(** ** Exceptions *)

(** The exceptions that cross the modelled code.  [PyError kind msg] is any
    exception other than FastAPI's [HTTPException], with its class name and
    its message. *)
Inductive exn : Type :=
| HTTPException (status_code : Z) (detail : string)
| PyError (kind : string) (msg : string).

(** [str(e)].  Starlette's [HTTPException.__str__] renders
    ["{status_code}: {detail}"]; other exceptions render their message. *)
Definition exn_str (e : exn) : string :=
  match e with
  | HTTPException c d => str_of_int c ++ ": " ++ d
  | PyError _ m => m
  end.

(* ================================================================== *)
(** ** Catalog documents *)

(** A document of the [products] collection as [add_product] writes it:
    every field a string (the price too: [price: str = Form(...)]). *)
Record product : Type := {
  p_id : string;
  p_name : string;
  p_price : string;
  p_category : string;
  p_description : string;
  p_image : string
}.

(** [OrderToolItem]: one requested line of [place_order]. *)
Record OrderToolItem : Type := {
  item_name : string;
  item_quantity : Z
}.

(* ================================================================== *)
(** ** RapidFuzz: [fuzz.ratio] and [process.extractOne] *)

Module RapidFuzz.

(** Length of a longest common subsequence of two strings. *)
Fixpoint lcs (s1 : string) : string -> nat :=
  match s1 with
  | EmptyString => fun _ => O
  | String a r1 =>
      fix lcs_a (s2 : string) : nat :=
        match s2 with
        | EmptyString => O
        | String b r2 =>
            if (a =? b)%char then S (lcs r1 r2)
            else Nat.max (lcs r1 s2) (lcs_a r2)
        end
  end.

(** [Indel.distance]: insertions and deletions turning [s1] into [s2]. *)
Definition indel_distance (s1 s2 : string) : nat :=
  (String.length s1 + String.length s2 - 2 * lcs s1 s2)%nat.

(** [Indel.normalized_distance]: [dist / maximum if maximum else 0]. *)
Definition indel_normalized_distance (s1 s2 : string) : Q :=
  let maximum := (String.length s1 + String.length s2)%nat in
  if (maximum =? 0)%nat then 0%Q
  else (Z.of_nat (indel_distance s1 s2) # Pos.of_nat maximum)%Q.

(** [fuzz.ratio]: the normalized Indel similarity scaled to 0..100.  The
    score is kept as an exact rational; the double RapidFuzz computes orders
    two scores, and compares a score with 70, the same way for names of any
    realistic length (two distinct scores differ by far more than a rounding
    error, and a distance of exactly three tenths gives the double 70.0). *)
Definition ratio (s1 s2 : string) : Q :=
  ((1 - indel_normalized_distance s1 s2) * 100)%Q.

(** One result of [extractOne]: the choice, its score and its index. *)
Definition match_result : Type := (string * Q * nat)%type.

(** The loop of [process.extractOne] over the remaining [choices], the first
    of which has index [idx], with the best result so far.  A choice replaces
    the best one only on a strictly greater score, and the scan stops at the
    optimal score 100.  The second component lists the choices the scorer was
    called on. *)
Fixpoint extractOne_loop (scorer : string -> string -> Q) (query : string)
    (choices : list string) (idx : nat) (best : option match_result)
    : option match_result * list string :=
  match choices with
  | [] => (best, [])
  | choice :: rest =>
      let score := scorer query choice in
      let best' :=
        match best with
        | None => Some (choice, score, idx)
        | Some (_, result_score, _) =>
            if negb (Qle_bool score result_score)
            then Some (choice, score, idx) else best
        end in
      if Qeq_bool score 100 then (best', [choice])
      else
        let (result, scored) :=
          extractOne_loop scorer query rest (S idx) best' in
        (result, choice :: scored)
  end.

(** [process.extractOne(query, choices, scorer=scorer)], with no processor
    and no score cutoff; [None] on an empty list of choices. *)
Definition extractOne (scorer : string -> string -> Q) (query : string)
    (choices : list string) : option match_result * list string :=
  extractOne_loop scorer query choices O None.

End RapidFuzz.

Section Model.

Context {F : PyFloat}.

(* ================================================================== *)
(** ** Python values *)

(** Python numbers: [int] and [float]. *)
Inductive num : Type :=
| NInt (z : Z)
| NFloat (x : flt).

(** The integers that convert to a double: those that round below
    [2^1024]. *)
Definition float_int_bound : Z := 2 ^ 1024 - 2 ^ 970.

(** The conversion of an [int] operand of a float operation ([x * n],
    [n + x]): an integer that rounds beyond the largest double raises
    [OverflowError]. *)
Definition int_as_float (z : Z) : exn + flt :=
  if Z.abs z <? float_int_bound then inr (float_of_int z)
  else inl (PyError "OverflowError" "int too large to convert to float").

(** The float operand a number stands for. *)
Definition num_float (n : num) : exn + flt :=
  match n with
  | NInt z => int_as_float z
  | NFloat x => inr x
  end.

(** [a + b]: integer addition on two ints, float addition otherwise, after
    the conversion of an [int] operand. *)
Definition num_add (a b : num) : exn + num :=
  match a, b with
  | NInt x, NInt y => inr (NInt (x + y))
  | _, _ =>
      match num_float a with
      | inl e => inl e
      | inr x =>
          match num_float b with
          | inl e => inl e
          | inr y => inr (NFloat (fl_add x y))
          end
      end
  end.

(** [n == 0], the falsity of a number. *)
Definition num_is_zero (n : num) : bool :=
  match n with
  | NInt z => z =? 0
  | NFloat x => fl_is_zero x
  end.

(** [str(n)], as an f-string renders a number. *)
Definition num_str (n : num) : string :=
  match n with
  | NInt z => str_of_int z
  | NFloat x => fl_str x
  end.

(** The accumulation [acc += x] over [l], left to right. *)
Fixpoint num_sum_from (acc : num) (l : list num) : exn + num :=
  match l with
  | [] => inr acc
  | x :: r =>
      match num_add acc x with
      | inl e => inl e
      | inr acc' => num_sum_from acc' r
      end
  end.

(** [sum(l)]: accumulation from the integer [0], left to right. *)
Definition num_sum (l : list num) : exn + num := num_sum_from (NInt 0) l.

(** The values that travel as JSON, and the timestamp of a stored order. *)
Inductive pyval : Type :=
| PNone
| PBool (b : bool)
| PNum (n : num)
| PStr (s : string)
| PList (l : list pyval)
| PDict (d : list (string * pyval))
| PDatetime (t : Z).

Definition dict : Type := list (string * pyval).

(** Truth value testing ([if v:], [not v], [a and b]). *)
Definition truthy (v : pyval) : bool :=
  match v with
  | PNone => false
  | PBool b => b
  | PNum n => negb (num_is_zero n)
  | PStr s => negb (s =? "")%string
  | PList l => match l with [] => false | _ => true end
  | PDict d => match d with [] => false | _ => true end
  | PDatetime _ => true
  end.

(** [d.get(k)] as an option ([None] when the key is absent). *)
Fixpoint dict_get (k : string) (d : dict) : option pyval :=
  match d with
  | [] => None
  | (k', v) :: r => if (k' =? k)%string then Some v else dict_get k r
  end.

(** [k in d]. *)
Definition dict_in (k : string) (d : dict) : bool :=
  match dict_get k d with Some _ => true | None => false end.

(** [d.get(k, default)]. *)
Definition dict_get_default (k : string) (default : pyval) (d : dict) : pyval :=
  match dict_get k d with Some v => v | None => default end.

(** [d[k] = v]: the binding is replaced where it stands, or appended. *)
Fixpoint dict_set (k : string) (v : pyval) (d : dict) : dict :=
  match d with
  | [] => [(k, v)]
  | (k', v') :: r =>
      if (k' =? k)%string then (k, v) :: r else (k', v') :: dict_set k v r
  end.

(** [d.update(u)]. *)
Definition dict_update (u : dict) (d : dict) : dict :=
  fold_left (fun acc kv => dict_set (fst kv) (snd kv) acc) u d.

(* ================================================================== *)
(** ** The world and the collaborators *)

(** The calls to collaborators that a request leaves behind. *)
Inductive event : Type :=
| EvRecognize (audio : string)
| EvRun (question : string) (context : pyval)
| EvSpeak (text : pyval).

(** The two MongoDB collections the pipeline touches, and the trace. *)
Record World : Type := mkWorld {
  products : list product;
  orders : list pyval;
  trace : list event
}.

(** The collaborators.
    - [recognize_google]: the upload converted and transcribed, or an error;
    - [json_loads]: [json.loads], the decoded value or the message of its
      [JSONDecodeError];
    - [Runner_run question context products orders]: the agent run, which
      yields [final_output] or raises, and may write orders through its tools;
    - [mongo_regex_i pattern]: the compiled case-insensitive regular
      expression of a [$regex] filter, [None] when the server rejects it;
    - [insert_one_fault doc]: the error of an [insert_one], if any;
    - [gTTS_save text]: the speech file written, by its base name, or an error;
    - [datetime_now]: the clock reading of the request. *)
Record Env : Type := mkEnv {
  recognize_google : string -> exn + string;
  json_loads : string -> string + pyval;
  Runner_run : string -> pyval -> list product -> list pyval ->
               (exn + pyval) * list pyval;
  mongo_regex_i : string -> option (string -> bool);
  insert_one_fault : pyval -> option exn;
  gTTS_save : pyval -> exn + string;
  datetime_now : Z
}.

Variable env : Env.

(** State and exceptions. *)
Definition M (A : Type) : Type := World -> (exn + A) * World.

Definition ret {A : Type} (a : A) : M A := fun w => (inr a, w).

Definition raise {A : Type} (e : exn) : M A := fun w => (inl e, w).

Definition bind {A B : Type} (m : M A) (k : A -> M B) : M B :=
  fun w => match m w with
           | (inl e, w') => (inl e, w')
           | (inr a, w') => k a w'
           end.

(** [try: m  except Exception as e: h e]. *)
Definition try_except {A : Type} (m : M A) (h : exn -> M A) : M A :=
  fun w => match m w with
           | (inl e, w') => h e w'
           | (inr a, w') => (inr a, w')
           end.

Definition lift {A : Type} (r : exn + A) : M A := fun w => (r, w).

Definition emit (ev : event) : M unit :=
  fun w => (inr tt, mkWorld (products w) (orders w) (trace w ++ [ev])).

Notation "x <- m ;; k" := (bind m (fun x => k))
  (at level 61, m at next level, right associativity).

(** [orders.insert_one(doc)].  (The driver also adds an [_id] to the
    document it is given; none of the modelled code reads it back.) *)
Definition insert_one (doc : pyval) : M unit :=
  fun w => match insert_one_fault env doc with
           | Some e => (inl e, w)
           | None => (inr tt, mkWorld (products w) (orders w ++ [doc]) (trace w))
           end.

(* ================================================================== *)
(** ** The catalog endpoint and the resolver of [add_to_order_tool] *)

(** [menu.setdefault(cat, []).append(item)]. *)
Fixpoint setdefault_append (cat : string) (item : product)
    (menu : list (string * list product)) : list (string * list product) :=
  match menu with
  | [] => [(cat, [item])]
  | (c, l) :: r =>
      if (c =? cat)%string then (c, (l ++ [item])%list) :: r
      else (c, l) :: setdefault_append cat item r
  end.

(** [get_all_products]: the catalog grouped by category, in order of first
    appearance ([serialize_item] keeps the fields of a typed document). *)
Definition get_all_products (coll : list product)
    : list (string * list product) :=
  fold_left (fun menu item => setdefault_append (p_category item) item menu)
            coll [].

(** The flattening loop: [all_products.extend(items)] per category. *)
Definition flatten_products (products_data : list (string * list product))
    : list product :=
  List.concat (map snd products_data).

(** [next((p for p in all_products
          if p["name"].lower() == product_name.lower()), None)]. *)
Definition exact_match (product_name : string) (all_products : list product)
    : option product :=
  find (fun p => (lower (p_name p) =? lower product_name)%string) all_products.

(** Lines 240-250 of [add_to_order_tool]: the product the name resolves to,
    with the list of candidate names the scorer was called on. *)
Definition resolve (product_name : string) (all_products : list product)
    : exn + (option product * list string) :=
  match exact_match product_name all_products with
  | Some product => inr (Some product, [])
  | None =>
      match all_products with
      | [] => inr (None, [])
      | _ :: _ =>
          let product_names := map p_name all_products in
          match RapidFuzz.extractOne RapidFuzz.ratio product_name product_names with
          | (Some (_, score, idx), scored) =>
              if Qle_bool 70 score
              then inr (nth_error all_products idx, scored)
              else inr (None, scored)
          | (None, _) =>
              inl (PyError "TypeError" "cannot unpack non-iterable NoneType object")
          end
      end
  end.

(** [float(product.get("price", 0))] on a stored price. *)
Definition price_of (p : product) : exn + flt :=
  match float_of_string (p_price p) with
  | Some x => inr x
  | None => inl (PyError "ValueError"
                   ("could not convert string to float: '" ++ p_price p ++ "'"))
  end.

(** [add_to_order_tool(table_number, product_name, quantity)], given the
    decoded answer [products_data] of its request to [/products]. *)
Definition add_to_order_tool (products_data : list (string * list product))
    (table_number : Z) (product_name : string) (quantity : Z) : exn + dict :=
  let all_products := flatten_products products_data in
  match resolve product_name all_products with
  | inl e => inl e
  | inr (None, _) =>
      inr [ ("message", PStr (" Sorry, " ++ product_name
                                 ++ " is not available in our menu."));
            ("table_number", PNum (NInt table_number));
            ("items", PList []);
            ("total", PNum (NInt 0));
            ("redirect", PBool false);
            ("redirect_url", PStr "");
            ("audio_url", PStr "") ]
  | inr (Some product, _) =>
      match price_of product with
      | inl e => inl e
      | inr price =>
          match int_as_float quantity with
          | inl e => inl e
          | inr factor =>
          let subtotal := fl_mul price factor in
          inr [ ("message",
                 PStr (" " ++ str_of_int quantity ++ " x " ++ p_name product
                        ++ " (Rs " ++ fl_str price ++ " each) added to Table "
                        ++ str_of_int table_number ++ "'s order. Total Rs "
                        ++ fl_str subtotal ++ "."));
                ("table_number", PNum (NInt table_number));
                ("items",
                 PList [ PDict [ ("name", PStr (p_name product));
                                 ("quantity", PNum (NInt quantity));
                                 ("price", PNum (NFloat price));
                                 ("subtotal", PNum (NFloat subtotal));
                                 ("image", PStr (p_image product)) ] ]);
                ("total", PNum (NFloat subtotal));
                ("redirect", PBool true);
                ("redirect_url", PStr "/order_summary");
                ("audio_url", PStr "/agent-audio?file=bdlz401o.mp3") ]
          end
      end
  end.

(* ================================================================== *)
(** ** [place_order] *)

(** [products.find_one({"name": {"$regex": pattern, "$options": "i"}})]:
    the first document, in natural order, whose name the expression
    matches. *)
Definition find_one_name_regex (pattern : string) (coll : list product)
    : exn + option product :=
  match mongo_regex_i env pattern with
  | None => inl (PyError "OperationFailure" "Regular expression is invalid")
  | Some matches => inr (find (fun p => matches (p_name p)) coll)
  end.

(** How the validation loop of [place_order] ends. *)
Inductive loop_result : Type :=
| Raised (e : exn)
| Returned (d : dict)
| Completed (validated_items : list pyval) (total : num).

(** The line [place_order] stores for a resolved item. *)
Definition validated_item (p : product) (quantity : Z) (price subtotal : flt)
    : pyval :=
  PDict [ ("_id", PStr (p_id p));
          ("name", PStr (p_name p));
          ("quantity", PNum (NInt quantity));
          ("price", PNum (NFloat price));
          ("subtotal", PNum (NFloat subtotal));
          ("category", PStr (p_category p));
          ("description", PStr (p_description p));
          ("image", PStr (p_image p)) ].

(** [for item in items: ...] with its two accumulators. *)
Fixpoint place_order_loop (coll : list product) (items : list OrderToolItem)
    (validated_items : list pyval) (total : num) : loop_result :=
  match items with
  | [] => Completed validated_items total
  | item :: rest =>
      match find_one_name_regex ("^" ++ item_name item ++ "$") coll with
      | inl e => Raised e
      | inr None =>
          Returned [ ("message", PStr (" Item '" ++ item_name item
                                          ++ "' not found in menu.")) ]
      | inr (Some p) =>
          match price_of p with
          | inl e => Raised e
          | inr price =>
              match int_as_float (item_quantity item) with
              | inl e => Raised e
              | inr factor =>
                  let subtotal := fl_mul price factor in
                  match num_add total (NFloat subtotal) with
                  | inl e => Raised e
                  | inr total' =>
                      place_order_loop coll rest
                        (validated_items
                           ++ [validated_item p (item_quantity item) price
                                 subtotal])%list
                        total'
                  end
              end
          end
      end
  end.

(** The document [place_order] inserts. *)
Definition order_doc (table_number : Z) (validated_items : list pyval)
    (total : num) : pyval :=
  PDict [ ("tableNumber", PNum (NInt table_number));
          ("items", PList validated_items);
          ("totalAmount", PNum total);
          ("timestamp", PDatetime (datetime_now env)) ].

Definition place_order (table_number : Z) (items : list OrderToolItem)
    : M dict :=
  fun w =>
    match place_order_loop (products w) items [] (NInt 0) with
    | Raised e => (inl e, w)
    | Returned d => (inr d, w)
    | Completed validated_items total =>
        (_ <- insert_one (order_doc table_number validated_items total) ;;
         ret [ ("message",
                PStr (" Order confirmed & saved for Table "
                        ++ str_of_int table_number ++ "! Total bill Rs "
                        ++ num_str total));
               ("success", PBool true);
               ("table_number", PNum (NInt table_number));
               ("items", PList validated_items);
               ("total", PNum total);
               ("redirect", PBool true);
               ("redirect_url", PStr "/order_summary") ]) w
    end.

(** The subtotal a stored line carries. *)
Definition line_subtotal (line : pyval) : option num :=
  match line with
  | PDict d =>
      match dict_get "subtotal" d with
      | Some (PNum n) => Some n
      | _ => None
      end
  | _ => None
  end.

(** The invariant of a stored order: its [totalAmount] is the sum of the
    subtotals of its lines. *)
Definition total_is_sum (doc : pyval) : Prop :=
  exists (d : dict) (lines : list pyval) (subtotals : list num),
    doc = PDict d
    /\ dict_get "items" d = Some (PList lines)
    /\ map line_subtotal lines = map Some subtotals
    /\ exists total,
         num_sum subtotals = inr total
         /\ dict_get "totalAmount" d = Some (PNum total).

(** The two fixed tools. *)
Definition greet_user : pyval :=
  PStr "Hello!  Welcome to Buddies party. Have a great day and a great meal with your buddies. What would you like to order?".

Definition show_menu_tool : dict :=
  [ ("message", PStr "Ok, I am showing you the menu.");
    ("redirect", PBool true);
    ("redirect_url", PStr "/menu") ].

(* ================================================================== *)
(** ** The response normalizer of [ask_agent] *)

(** The default response (lines 464-471). *)
Definition default_response : dict :=
  [ ("message", PStr "");
    ("redirect", PBool false);
    ("redirect_url", PNone);
    ("table_number", PNone);
    ("items", PList []);
    ("total", PNum (NInt 0)) ].

Definition recognized_keys : list string :=
  [ "message"; "redirect"; "redirect_url"; "table_number"; "items"; "total";
    "success" ].

(** [for key in keys: if key in source: response_data[key] = source[key]]. *)
Fixpoint copy_keys (keys : list string) (source response_data : dict) : dict :=
  match keys with
  | [] => response_data
  | key :: rest =>
      match dict_get key source with
      | Some v => copy_keys rest source (dict_set key v response_data)
      | None => copy_keys rest source response_data
      end
  end.

(** The fenced-JSON clean-up of a string output (lines 482-484). *)
Definition clean_output (final_output : string) : string :=
  let cleaned_output := strip final_output in
  if startswith ("```json" ++ newline) cleaned_output
     && endswith (newline ++ "```") cleaned_output
  then strip (slice 7 3 cleaned_output)
  else cleaned_output.

(** Lines 463-493: the response after the field copy. *)
Definition normalize_output (final_output : pyval) : dict :=
  match final_output with
  | PDict d => copy_keys recognized_keys d default_response
  | PStr s =>
      match json_loads env (clean_output s) with
      | inr (PDict d) => copy_keys recognized_keys d default_response
      | inr _ => dict_set "message" (PStr s) default_response
      | inl _ => dict_set "message" (PStr s) default_response
      end
  | _ => default_response
  end.

(** [response_data[k]] for a key the response holds. *)
Definition item (k : string) (response_data : dict) : pyval :=
  dict_get_default k PNone response_data.

(** Lines 495-502: the forced redirect, from the lower-cased question. *)
Definition force_redirect (question_lower : string) (response_data : dict)
    : dict :=
  if (str_in "menu" question_lower || str_in "show menu" question_lower
        || str_in "mujhe menu" question_lower)
     && negb (truthy (item "redirect" response_data))
  then dict_set "redirect_url" (PStr "/menu")
         (dict_set "redirect" (PBool true) response_data)
  else if (str_in "order" question_lower
             || str_in "order confirmation" question_lower
             || str_in "my order" question_lower
             || str_in "mera order" question_lower)
          && negb (truthy (item "redirect" response_data))
  then dict_set "redirect_url" (PStr "/order_summary")
         (dict_set "redirect" (PBool true) response_data)
  else response_data.

(** The keyword lists of the two scans. *)
Definition menu_keywords : list string := [ "menu"; "show menu"; "mujhe menu" ].

Definition order_keywords : list string :=
  [ "order"; "order confirmation"; "my order"; "mera order" ].

(** Some keyword of the list occurs in the lower-cased utterance. *)
Definition mentions (keywords : list string) (question_lower : string) : bool :=
  existsb (fun keyword => str_in keyword question_lower) keywords.

(** [v.get(k)] on an arbitrary value: only a dict has the method. *)
Definition py_get (v : pyval) (k : string) : exn + pyval :=
  match v with
  | PDict d => inr (dict_get_default k PNone d)
  | _ => inl (PyError "AttributeError" "object has no attribute 'get'")
  end.

(** [context and context.get("table_number") and context.get("items")]. *)
Definition context_usable (context : pyval) : exn + bool :=
  if truthy context then
    match py_get context "table_number" with
    | inl e => inl e
    | inr table_number =>
        if truthy table_number then
          match py_get context "items" with
          | inl e => inl e
          | inr items => inr (truthy items)
          end
        else inr false
    end
  else inr false.

Definition clarification_text : string :=
  " Please specify both table number and items to confirm your order.".

Definition confirm_failed_text : string :=
  " Failed to confirm order. Please try again.".

(** The document the safety net stores (lines 509-514). *)
Definition saved_order (context : dict) : dict :=
  [ ("tableNumber", dict_get_default "table_number" PNone context);
    ("items", dict_get_default "items" PNone context);
    ("totalAmount", dict_get_default "total" (PNum (NInt 0)) context);
    ("timestamp", PDatetime (datetime_now env)) ].

(** The fields the safety net overwrites once the order is saved
    (lines 517-524). *)
Definition confirmed_fields (saved : dict) : dict :=
  [ ("message", PStr " Order confirmed and saved successfully!");
    ("redirect", PBool true);
    ("redirect_url", PStr "/order_summary");
    ("table_number", item "tableNumber" saved);
    ("items", item "items" saved);
    ("total", item "totalAmount" saved) ].

(** Lines 504-531: the special handling of "confirm order". *)
Definition confirm_order (question_lower : string) (context : pyval)
    (response_data : dict) : M dict :=
  if str_in "confirm order" question_lower then
    try_except
      (usable <- lift (context_usable context) ;;
       if (usable : bool) then
         match context with
         | PDict c =>
             let saved := saved_order c in
             _ <- insert_one (PDict saved) ;;
             ret (dict_update (confirmed_fields saved) response_data)
         | _ => raise (PyError "TypeError" "object is not subscriptable")
         end
       else ret (dict_set "message" (PStr clarification_text) response_data))
      (fun _ => ret (dict_set "message" (PStr confirm_failed_text) response_data))
  else ret response_data.

(** A context that carries no usable order: none at all, or an object whose
    table number or item list is missing or empty. *)
Definition lacks_usable_order (context : pyval) : Prop :=
  context = PNone
  \/ exists c, context = PDict c
               /\ (truthy (dict_get_default "table_number" PNone c) = false
                   \/ truthy (dict_get_default "items" PNone c) = false).

(** A context on which the test of line 507 comes out false: a value that
    is itself false (none, [null], [false], [0], an empty string, array or
    object), or an object whose table number or item list is missing or
    false. *)
Definition unusable_order (context : pyval) : Prop :=
  truthy context = false
  \/ exists c, context = PDict c
               /\ (truthy (dict_get_default "table_number" PNone c) = false
                   \/ truthy (dict_get_default "items" PNone c) = false).

(** Lines 533-540: speech for a non-empty message. *)
Definition speak (response_data : dict) : M dict :=
  let message := item "message" response_data in
  if truthy message then
    _ <- emit (EvSpeak message) ;;
    file <- lift (gTTS_save env message) ;;
    ret (dict_set "audio_url" (PStr ("/agent-audio?file=" ++ file)) response_data)
  else ret response_data.

(** [json.loads(order_summary) if order_summary else None]. *)
Definition load_context (order_summary : option string) : M pyval :=
  match order_summary with
  | None => ret PNone
  | Some s =>
      if (s =? "")%string then ret PNone
      else match json_loads env s with
           | inr v => ret v
           | inl msg => raise (PyError "JSONDecodeError" msg)
           end
  end.

(** [Runner.run(main_agent, question, run_config, context)]. *)
Definition run_agent (question : string) (context : pyval) : M pyval :=
  fun w =>
    let (r, orders') := Runner_run env question context (products w) (orders w) in
    (r, mkWorld (products w) orders' (trace w ++ [EvRun question context])).

(** Lines 458-543: the dispatch of an utterance and the normalization of
    what the agent answered. *)
Definition respond (question : string) (context : pyval) : M dict :=
  final_output <- run_agent question context ;;
  let response_data := normalize_output final_output in
  let question_lower := lower question in
  let response_data := force_redirect question_lower response_data in
  response_data <- confirm_order question_lower context response_data ;;
  speak response_data.

(** Lines 431-448: the effective question of a request. *)
Definition transcribe (question : option string) (audio : option string)
    : M (option string) :=
  match audio with
  | Some a =>
      _ <- emit (EvRecognize a) ;;
      q <- lift (recognize_google env a) ;;
      ret (Some q)
  | None => ret question
  end.

(** The [/agent] route.  A form field left out is [None]. *)
Definition ask_agent (question : option string) (audio : option string)
    (order_summary : option string) : M dict :=
  try_except
    (question <- transcribe question audio ;;
     match question with
     | None => raise (HTTPException 400 "No question or audio provided.")
     | Some q =>
         if (q =? "")%string
         then raise (HTTPException 400 "No question or audio provided.")
         else
           context <- load_context order_summary ;;
           respond q context
     end)
    (fun e => raise (HTTPException 500 (exn_str e))).

(** The test that sorts a document under the category [c]. *)
Definition in_category (c : string) (p : product) : bool :=
  String.eqb (p_category p) c.

(** The line stored for an item: the document the lookup finds for its
    name, at its parsed price, with the item's quantity. *)
Definition line_of (coll : list product) (it : OrderToolItem) (line : pyval)
    : Prop :=
  exists p price factor,
    find_one_name_regex ("^" ++ item_name it ++ "$") coll = inr (Some p)
    /\ float_of_string (p_price p) = Some price
    /\ int_as_float (item_quantity it) = inr factor
    /\ line = validated_item p (item_quantity it) price
                (fl_mul price factor).

(** The keys of the default response (lines 464-471). *)
Definition canonical_keys : list string :=
  [ "message"; "redirect"; "redirect_url"; "table_number"; "items"; "total" ].

(* ================================================================== *)
(** ** The catalog write endpoint *)

(** [upload_image_to_cloudinary], given the outcome of the upload call: the
    secure URL, or the error the helper wraps into a 500. *)
Definition upload_image_to_cloudinary (uploaded : exn + string)
    : exn + string :=
  match uploaded with
  | inr secure_url => inr secure_url
  | inl e => inl (HTTPException 500 ("Image upload failed: " ++ exn_str e))
  end.

(** [add_product] and [add_deal], on the collection [products] of the world:
    [uploaded] is the outcome of the image upload, [inserted] that of
    [insert_one] (the identifier MongoDB gave the document, or its error). *)
Definition add_product (uploaded : exn + string) (inserted : exn + string)
    (name price category description : string) : M dict :=
  image_url <- lift (upload_image_to_cloudinary uploaded) ;;
  new_id <- lift inserted ;;
  fun w =>
    (inr [ ("success", PBool true);
           ("message", PStr "Product added successfully") ],
     mkWorld (products w
                ++ [ {| p_id := new_id; p_name := name; p_price := price;
                        p_category := category;
                        p_description := description;
                        p_image := image_url |} ])%list
             (orders w) (trace w)).

End Model.

Arguments mkWorld {F} _ _ _.
Arguments products {F} _.
Arguments orders {F} _.
Arguments trace {F} _.

(* ================================================================== *)
(** ** An exact float instance, to run the model *)

Module ExactFloat.

Definition digit_of (c : ascii) : option Z :=
  let n := nat_of_ascii c in
  if (48 <=? n)%nat && (n <=? 57)%nat then Some (Z.of_nat (n - 48)) else None.

(** The value and the number of digits of a run of decimal digits. *)
Fixpoint digits (s : string) (acc : Z) (count : nat) : option (Z * nat) :=
  match s with
  | EmptyString => Some (acc, count)
  | String c t =>
      match digit_of c with
      | Some d => digits t (10 * acc + d) (S count)
      | None => None
      end
  end.

(** Splits a literal at its first point. *)
Fixpoint split_point (s : string) : string * option string :=
  match s with
  | EmptyString => (EmptyString, None)
  | String c t =>
      if (c =? ".")%char then (EmptyString, Some t)
      else let (a, b) := split_point t in (String c a, b)
  end.

(** [float(s)] on the literals [ddd] and [ddd.ddd]; anything else is
    refused. *)
Definition parse (s : string) : option Q :=
  match split_point s with
  | (whole, None) =>
      match whole, digits whole 0 O with
      | String _ _, Some (n, _) => Some (inject_Z n)
      | _, _ => None
      end
  | (whole, Some frac) =>
      match whole, digits whole 0 O, digits frac 0 O with
      | String _ _, Some (n, _), Some (m, k) =>
          Some (Qred (inject_Z n + (m # Pos.of_nat (10 ^ k)%nat)))
      | _, _, _ => None
      end
  end.

(** A rendering of an exact value: [n.0] for an integer, [n/d] otherwise. *)
Definition render (q : Q) : string :=
  let r := Qred q in
  if (Qden r =? 1)%positive then str_of_int (Qnum r) ++ ".0"
  else str_of_int (Qnum r) ++ "/" ++ str_of_int (Zpos (Qden r)).

End ExactFloat.

#[export] Instance QFloat : PyFloat := {|
  flt := Q;
  float_of_string := ExactFloat.parse;
  float_of_int := inject_Z;
  fl_add := fun a b => Qred (a + b);
  fl_mul := fun a b => Qred (a * b);
  fl_is_zero := fun a => Qeq_bool a 0;
  fl_str := ExactFloat.render
|}.

(* ================================================================== *)
(** ** A fragment of MongoDB's regular expressions, to run the model *)

(** Anchored patterns [^ piece* $] whose pieces are a literal character or
    the dot, each optionally starred, matched without regard to case.  A
    pattern with any other metacharacter is outside the fragment and is
    reported as rejected. *)
Module RegexLite.

Inductive atom : Type :=
| AChar (c : ascii)
| AAny.

Inductive piece : Type :=
| POnce (a : atom)
| PStar (a : atom).

Definition is_meta (c : ascii) : bool :=
  existsb (fun m => (m =? c)%char)
    (list_ascii_of_string "\^$.[]|()?*+{}").

Definition atom_of (c : ascii) : option atom :=
  if (c =? ".")%char then Some AAny
  else if is_meta c then None
  else Some (AChar c).

(** The pieces of a pattern body up to its closing [$]. *)
Fixpoint parse_body (s : string) : option (list piece) :=
  match s with
  | EmptyString => None
  | String c t =>
      if (c =? "$")%char then
        match t with EmptyString => Some [] | _ => None end
      else
        match atom_of c with
        | None => None
        | Some a =>
            match t with
            | String "*"%char t' => option_map (cons (PStar a)) (parse_body t')
            | _ => option_map (cons (POnce a)) (parse_body t)
            end
        end
  end.

Definition atom_matches (a : atom) (x : ascii) : bool :=
  match a with
  | AChar c => (lower_ascii c =? lower_ascii x)%char
  | AAny => negb (x =? ascii_of_nat 10)%char
  end.

(** Backtracking match of the pieces against the whole subject; the closing
    [$] also matches before a final line feed. *)
Fixpoint match_pieces (ps : list piece) : string -> bool :=
  match ps with
  | [] => fun s => (s =? "")%string || (s =? newline)%string
  | POnce a :: r =>
      fun s => match s with
               | EmptyString => false
               | String x t => atom_matches a x && match_pieces r t
               end
  | PStar a :: r =>
      fix star (s : string) : bool :=
        match_pieces r s
        || match s with
           | EmptyString => false
           | String x t => atom_matches a x && star t
           end
  end.

Definition compile_i (pattern : string) : option (string -> bool) :=
  match pattern with
  | String "^"%char body => option_map match_pieces (parse_body body)
  | _ => None
  end.

End RegexLite.

(* ================================================================== *)
(** ** Example data *)

Module Demo.

(** JSON text written with single quotes for the double ones. *)
Fixpoint json_text (s : string) : string :=
  match s with
  | EmptyString => EmptyString
  | String c t =>
      String (if (c =? "'")%char then ascii_of_nat 34 else c) (json_text t)
  end.

Definition pizza : product :=
  {| p_id := "64f0c0ffee"; p_name := "Pizza"; p_price := "10";
     p_category := "Fast Food"; p_description := "Cheese pizza";
     p_image := "https://img/pizza.png" |}.

Definition soup : product :=
  {| p_id := "64f0c0ffef"; p_name := "Chicken Soup"; p_price := "4.5";
     p_category := "Starters"; p_description := "Hot soup";
     p_image := "https://img/soup.png" |}.

Definition burger : product :=
  {| p_id := "64f0c0fff0"; p_name := "Zinger Burger"; p_price := "7";
     p_category := "Fast Food"; p_description := "Crispy burger";
     p_image := "https://img/burger.png" |}.

Definition catalog : list product := [pizza; soup; burger].

(** The candidates of the resolver: the catalog as [/products] groups it,
    flattened again. *)
Definition all_products : list product :=
  flatten_products (get_all_products catalog).

(** The context of the confirm-order example of the specification. *)
Definition summary_text : string :=
  json_text "{'table_number': '5', 'items': [{'name': 'Pizza', 'quantity': 2, 'price': 10}], 'total': 20}".

Definition summary : pyval :=
  PDict [ ("table_number", PStr "5");
          ("items", PList [ PDict [ ("name", PStr "Pizza");
                                    ("quantity", PNum (NInt 2));
                                    ("price", PNum (NInt 10)) ] ]);
          ("total", PNum (NInt 20)) ].

(** A context whose total disagrees with its only line. *)
Definition skewed_text : string :=
  json_text "{'table_number': '5', 'items': [{'name': 'Pizza', 'quantity': 2, 'price': 10, 'subtotal': 20}], 'total': 5}".

Definition skewed : pyval :=
  PDict [ ("table_number", PStr "5");
          ("items", PList [ PDict [ ("name", PStr "Pizza");
                                    ("quantity", PNum (NInt 2));
                                    ("price", PNum (NInt 10));
                                    ("subtotal", PNum (NInt 20)) ] ]);
          ("total", PNum (NInt 5)) ].

(** A context with a table number and no items. *)
Definition no_items_text : string :=
  json_text "{'table_number': '5', 'items': []}".

Definition no_items : pyval :=
  PDict [ ("table_number", PStr "5"); ("items", PList []) ].

(** [json.loads] on the texts above; any other text is answered like one
    that starts no JSON value. *)
Definition loads (s : string) : string + pyval :=
  if (s =? summary_text)%string then inr summary
  else if (s =? skewed_text)%string then inr skewed
  else if (s =? no_items_text)%string then inr no_items
  else inl "Expecting value: line 1 column 1 (char 0)".

(** An agent that answers in free text and calls no tool. *)
Definition env : Env :=
  {| recognize_google := fun _ => inr "mujhe menu dikhao";
     json_loads := loads;
     Runner_run := fun _ _ _ os => (inr (PStr "Sure."), os);
     mongo_regex_i := RegexLite.compile_i;
     insert_one_fault := fun _ => None;
     gTTS_save := fun _ => inr "tmpk3v9x1.mp3";
     datetime_now := 1762250000 |}.

Definition world : World := mkWorld catalog [] [].

End Demo.

(** Example data for the failure paths. *)
Module Faults.

(** A document whose stored price is no number. *)
Definition karahi : product :=
  {| p_id := "64f0c0fff1"; p_name := "Karahi"; p_price := "ask the waiter";
     p_category := "Desi"; p_description := "Chicken karahi";
     p_image := "https://img/karahi.png" |}.

Definition catalog : list product := [Demo.pizza; karahi].

(** The collaborators of [Demo.env] with a database that refuses writes. *)
Definition env : Env :=
  {| recognize_google := recognize_google Demo.env;
     json_loads := json_loads Demo.env;
     Runner_run := Runner_run Demo.env;
     mongo_regex_i := mongo_regex_i Demo.env;
     insert_one_fault :=
       fun _ => Some (PyError "ServerSelectionTimeoutError"
                        "No servers found yet");
     gTTS_save := gTTS_save Demo.env;
     datetime_now := datetime_now Demo.env |}.

End Faults.

(* ================================================================== *)
(** * Properties *)

Section Properties.

Context {F : PyFloat}.
Variable env : Env.

#[local] Arguments String.eqb : simpl never.
#[local] Arguments str_in : simpl never.

(** ** Dictionaries *)

Lemma dict_get_set_same (k : string) (v : pyval) (d : dict) :
  dict_get k (dict_set k v d) = Some v.
Proof.
  induction d as [|[k' v'] r IH]; simpl.
  - now rewrite String.eqb_refl.
  - destruct (String.eqb k' k) eqn:E; simpl.
    + now rewrite String.eqb_refl.
    + now rewrite E.
Qed.

Lemma dict_get_set_other (k k' : string) (v : pyval) (d : dict) :
  k <> k' -> dict_get k (dict_set k' v d) = dict_get k d.
Proof.
  intros Hne.
  assert (Hkk : String.eqb k' k = false)
    by (apply String.eqb_neq; congruence).
  induction d as [|[k0 v0] r IH]; simpl.
  - now rewrite Hkk.
  - destruct (String.eqb k0 k') eqn:E; simpl.
    + apply String.eqb_eq in E. subst k0. now rewrite Hkk.
    + now rewrite IH.
Qed.

Lemma dict_get_set (k k' : string) (v : pyval) (d : dict) :
  dict_get k (dict_set k' v d) =
  if String.eqb k' k then Some v else dict_get k d.
Proof.
  destruct (String.eqb k' k) eqn:E.
  - apply String.eqb_eq in E. subst. apply dict_get_set_same.
  - apply dict_get_set_other. apply String.eqb_neq in E. congruence.
Qed.

(** What the copy loop leaves under a key: the source's value for a listed
    key the source holds, the previous value otherwise. *)
Lemma dict_get_copy_keys (keys : list string) (source : dict) :
  forall (response_data : dict) (k : string),
    dict_get k (copy_keys keys source response_data) =
    if existsb (String.eqb k) keys
    then match dict_get k source with
         | Some v => Some v
         | None => dict_get k response_data
         end
    else dict_get k response_data.
Proof.
  induction keys as [|key rest IH]; intros response_data k; simpl.
  - reflexivity.
  - destruct (dict_get key source) as [v|] eqn:Hsrc; rewrite IH.
    + rewrite dict_get_set. rewrite (String.eqb_sym k key).
      destruct (String.eqb key k) eqn:E; simpl.
      * apply String.eqb_eq in E. subst key. rewrite Hsrc.
        now destruct (existsb (String.eqb k) rest).
      * reflexivity.
    + destruct (String.eqb k key) eqn:E; simpl.
      * apply String.eqb_eq in E. subst key. rewrite Hsrc.
        now destruct (existsb (String.eqb k) rest).
      * reflexivity.
Qed.

(** C9. For a structured handler output [d], the response after the field
    copy holds, under each recognized key that [d] has, the value [d] gives
    it; under each key that [d] lacks, what the default response holds
    (message "", redirect False, redirect_url None, table_number None,
    items [], total 0, and no "success" entry); and nothing under a key that
    is not recognized, whatever [d] holds there. *)
Theorem normalize_copies_recognized_fields (d : dict) (k : string) :
  (forall v, In k recognized_keys -> dict_get k d = Some v ->
             dict_get k (normalize_output env (PDict d)) = Some v)
  /\ (dict_get k d = None ->
      dict_get k (normalize_output env (PDict d)) = dict_get k default_response)
  /\ (~ In k recognized_keys ->
      dict_get k (normalize_output env (PDict d)) = None)
  /\ (dict_get "message" default_response = Some (PStr "")
      /\ dict_get "redirect" default_response = Some (PBool false)
      /\ dict_get "redirect_url" default_response = Some PNone
      /\ dict_get "table_number" default_response = Some PNone
      /\ dict_get "items" default_response = Some (PList [])
      /\ dict_get "total" default_response = Some (PNum (NInt 0))
      /\ dict_get "success" default_response = None).
Proof.
  unfold normalize_output.
  repeat split; try reflexivity.
  - intros v Hin Hget. rewrite dict_get_copy_keys, Hget.
    replace (existsb (String.eqb k) recognized_keys) with true; [reflexivity|].
    symmetry. apply existsb_exists. exists k. split; [assumption|].
    apply String.eqb_refl.
  - intros Hget. rewrite dict_get_copy_keys, Hget.
    now destruct (existsb (String.eqb k) recognized_keys).
  - intros Hnot. rewrite dict_get_copy_keys.
    destruct (existsb (String.eqb k) recognized_keys) eqn:E.
    + exfalso. apply Hnot. apply existsb_exists in E.
      destruct E as [x [Hx Heq]]. apply String.eqb_eq in Heq. now subst x.
    + unfold recognized_keys in E. simpl in E.
      repeat (apply orb_false_iff in E; destruct E as [?E E]).
      unfold default_response. simpl.
      repeat match goal with
             | H : String.eqb k ?s = false |- _ =>
                 rewrite (String.eqb_sym s k), H; clear H
             end.
      reflexivity.
Qed.

(** ** The forced redirect *)

Lemma mentions_menu (q : string) :
  mentions menu_keywords q
  = str_in "menu" q || str_in "show menu" q || str_in "mujhe menu" q.
Proof.
  unfold mentions, menu_keywords. simpl.
  rewrite orb_false_r. now rewrite !orb_assoc.
Qed.

Lemma mentions_order (q : string) :
  mentions order_keywords q
  = str_in "order" q || str_in "order confirmation" q
    || str_in "my order" q || str_in "mera order" q.
Proof.
  unfold mentions, order_keywords. simpl.
  rewrite orb_false_r. now rewrite !orb_assoc.
Qed.

Lemma dict_get_forced (url : string) (k : string) (r : dict) :
  dict_get k (dict_set "redirect_url" (PStr url)
                (dict_set "redirect" (PBool true) r))
  = if String.eqb "redirect_url" k then Some (PStr url)
    else if String.eqb "redirect" k then Some (PBool true)
    else dict_get k r.
Proof. now rewrite !dict_get_set. Qed.

(** C8. The redirect inference of the normalizer.  With the redirect flag
    of the response still false after the field copy: an utterance that
    mentions a menu keyword forces redirect=True to "/menu"; failing that,
    one that mentions an order keyword forces redirect=True to
    "/order_summary"; one that mentions neither leaves the response as it
    is, whatever the handler put in it.  A response whose redirect flag is
    already set comes out unchanged.  No other field is ever touched. *)
Theorem force_redirect_inference (question : string) (response_data : dict) :
  let q := lower question in
  let forced := force_redirect q response_data in
  (truthy (item "redirect" response_data) = false ->
     (mentions menu_keywords q = true ->
        dict_get "redirect" forced = Some (PBool true)
        /\ dict_get "redirect_url" forced = Some (PStr "/menu"))
     /\ (mentions menu_keywords q = false ->
         mentions order_keywords q = true ->
           dict_get "redirect" forced = Some (PBool true)
           /\ dict_get "redirect_url" forced = Some (PStr "/order_summary"))
     /\ (mentions menu_keywords q = false ->
         mentions order_keywords q = false ->
           forced = response_data))
  /\ (truthy (item "redirect" response_data) = true ->
        forced = response_data)
  /\ (forall k, k <> "redirect" -> k <> "redirect_url" ->
        dict_get k forced = dict_get k response_data).
Proof.
  intros q forced. subst forced. unfold force_redirect.
  rewrite <- mentions_menu, <- mentions_order.
  split; [|split].
  - intros Hflag. rewrite Hflag. simpl negb. rewrite !andb_true_r.
    split; [|split].
    + intros Hm. rewrite Hm. rewrite !dict_get_forced. now split.
    + intros Hm Ho. rewrite Hm, Ho. rewrite !dict_get_forced. now split.
    + intros Hm Ho. now rewrite Hm, Ho.
  - intros Hflag. rewrite Hflag. simpl negb. now rewrite !andb_false_r.
  - intros k Hk1 Hk2.
    assert (E1 : String.eqb "redirect" k = false)
      by (apply String.eqb_neq; congruence).
    assert (E2 : String.eqb "redirect_url" k = false)
      by (apply String.eqb_neq; congruence).
    destruct (mentions menu_keywords q && _);
      [now rewrite dict_get_forced, E1, E2|].
    destruct (mentions order_keywords q && _);
      [now rewrite dict_get_forced, E1, E2|reflexivity].
Qed.

(** ** The confirm-order safety net *)

Lemma truthy_get_nonempty (k : string) (c : dict) :
  truthy (dict_get_default k PNone c) = true -> truthy (PDict c) = true.
Proof. destruct c; [discriminate|reflexivity]. Qed.


(** The step on a usable context: one insertion, then the overwrite. *)
Lemma confirm_order_usable (q : string) (c response_data : dict) (w : World) :
  str_in "confirm order" q = true ->
  truthy (dict_get_default "table_number" PNone c) = true ->
  truthy (dict_get_default "items" PNone c) = true ->
  insert_one_fault env (PDict (saved_order env c)) = None ->
  confirm_order env q (PDict c) response_data w
  = (inr (dict_update (confirmed_fields (saved_order env c)) response_data),
     mkWorld (products w) (orders w ++ [PDict (saved_order env c)]) (trace w)).
Proof.
  intros Hq Htn Hitems Hfault.
  unfold confirm_order. rewrite Hq.
  unfold try_except, bind, lift, context_usable.
  rewrite (truthy_get_nonempty _ _ Htn).
  unfold py_get. rewrite Htn, Hitems.
  unfold insert_one. rewrite Hfault. reflexivity.
Qed.

Lemma lacks_usable_order_test (context : pyval) :
  lacks_usable_order context -> context_usable context = inr false.
Proof.
  intros [->|[c [-> H]]]; [reflexivity|].
  unfold context_usable, py_get.
  destruct (truthy (PDict c)); [|reflexivity].
  destruct (truthy (dict_get_default "table_number" PNone c)) eqn:Htn.
  - destruct H as [H|H]; [discriminate|now rewrite H].
  - reflexivity.
Qed.

(** The step on a context without a usable order: the clarification, and
    the world as it was. *)
Lemma confirm_order_unusable (q : string) (context : pyval)
    (response_data : dict) (w : World) :
  str_in "confirm order" q = true ->
  lacks_usable_order context ->
  confirm_order env q context response_data w
  = (inr (dict_set "message" (PStr clarification_text) response_data), w).
Proof.
  intros Hq Hlack.
  unfold confirm_order. rewrite Hq.
  unfold try_except, bind, lift.
  now rewrite (lacks_usable_order_test _ Hlack).
Qed.

Lemma run_agent_returns (question : string) (context : pyval) (w : World)
    (final_output : pyval) (orders' : list pyval) :
  Runner_run env question context (products w) (orders w)
    = (inr final_output, orders') ->
  run_agent env question context w
  = (inr final_output,
     mkWorld (products w) orders' (trace w ++ [EvRun question context])).
Proof. intros H. unfold run_agent. now rewrite H. Qed.

Lemma speak_says (response_data : dict) (w : World) (text : string)
    (file : string) :
  dict_get "message" response_data = Some (PStr text) ->
  text <> "" ->
  gTTS_save env (PStr text) = inr file ->
  speak env response_data w
  = (inr (dict_set "audio_url" (PStr ("/agent-audio?file=" ++ file))
            response_data),
     mkWorld (products w) (orders w) (trace w ++ [EvSpeak (PStr text)])).
Proof.
  intros Hmsg Hne Htts.
  assert (Ht : truthy (PStr text) = true).
  { unfold truthy. apply negb_true_iff. now apply String.eqb_neq. }
  unfold speak, item, dict_get_default.
  rewrite Hmsg, Ht. unfold bind, emit, lift, ret. now rewrite Htts.
Qed.




Lemma unusable_order_test (context : pyval) :
  unusable_order context -> context_usable context = inr false.
Proof.
  intros [H|[c [-> H]]]; unfold context_usable; [now rewrite H|].
  unfold py_get.
  destruct (truthy (PDict c)); [|reflexivity].
  destruct (truthy (dict_get_default "table_number" PNone c)) eqn:Htn.
  - destruct H as [H|H]; [discriminate|now rewrite H].
  - reflexivity.
Qed.

(** The step on a context that does not pass the test of line 507, the
    test raising included: the world is as it was. *)
Lemma confirm_order_stores_nothing (q : string) (context : pyval)
    (response_data : dict) (w : World) :
  context_usable context <> inr true ->
  snd (confirm_order env q context response_data w) = w.
Proof.
  intros Hnot. unfold confirm_order.
  destruct (str_in "confirm order" q); [|reflexivity].
  unfold try_except, bind, lift.
  destruct (context_usable context) as [e|[|]]; try reflexivity.
  now destruct Hnot.
Qed.

(** C7, as the code has it.  Let the utterance contain "confirm order" and
    the agent run return.  Whenever the context does not pass the test of
    the safety net (it is absent or false, it lacks a table number or
    items, or it is no object at all), the safety net stores nothing: the
    orders are exactly what the agent run left.  And when the context is
    absent or a false value ([null], [false], [0], an empty string, array or
    object), or is an object whose table number or item list is missing or
    empty, the response message is the fixed clarification text (the speech
    collaborator not failing). *)
Theorem confirm_order_without_usable_order
    (question : string) (context : pyval) (w : World)
    (final_output : pyval) (orders' : list pyval) :
  str_in "confirm order" (lower question) = true ->
  Runner_run env question context (products w) (orders w)
    = (inr final_output, orders') ->
  (context_usable context <> inr true ->
   orders (snd (respond env question context w)) = orders')
  /\ (unusable_order context ->
      forall file,
        gTTS_save env (PStr clarification_text) = inr file ->
        exists (response : dict) (w' : World),
          respond env question context w = (inr response, w')
          /\ dict_get "message" response
             = Some (PStr " Please specify both table number and items to confirm your order.")
          /\ orders w' = orders').
Proof.
  intros Hq Hrun.
  set (r0 := force_redirect (lower question) (normalize_output env final_output)).
  set (w1 := mkWorld (products w) orders' (trace w ++ [EvRun question context])).
  split.
  - intros Hnot. unfold respond, bind.
    rewrite (run_agent_returns _ _ _ _ _ Hrun). fold r0 w1.
    pose proof (confirm_order_stores_nothing (lower question) context r0 w1 Hnot)
      as Hsame.
    destruct (confirm_order env (lower question) context r0 w1)
      as [[e|r1] w2]; cbn [snd] in Hsame; subst w2; [reflexivity|].
    unfold speak. destruct (truthy (item "message" r1)); [|reflexivity].
    unfold bind, emit, lift, ret.
    now destruct (gTTS_save env (item "message" r1)).
  - intros Hun file Htts.
    set (r1 := dict_set "message" (PStr clarification_text) r0).
    assert (Hmsg : dict_get "message" r1 = Some (PStr clarification_text))
      by apply dict_get_set_same.
    assert (Hstep : confirm_order env (lower question) context r0 w1
                    = (inr r1, w1)).
    { unfold confirm_order. rewrite Hq. unfold try_except, bind, lift.
      now rewrite (unusable_order_test _ Hun). }
    eexists. eexists. split.
    { unfold respond, bind. rewrite (run_agent_returns _ _ _ _ _ Hrun).
      fold r0 w1. rewrite Hstep.
      rewrite (speak_says r1 _ _ file Hmsg);
        [reflexivity|discriminate|exact Htts]. }
    split; [|reflexivity].
    rewrite dict_get_set_other by discriminate. exact Hmsg.
Qed.

(** X2. The forced redirect reaches the client: for an utterance without
    "confirm order", the redirect fields of the final response are those the
    redirect inference left. *)
Theorem respond_keeps_forced_redirect
    (question : string) (context : pyval) (w : World)
    (final_output : pyval) (orders' : list pyval)
    (response : dict) (w' : World) :
  str_in "confirm order" (lower question) = false ->
  Runner_run env question context (products w) (orders w)
    = (inr final_output, orders') ->
  respond env question context w = (inr response, w') ->
  let forced :=
    force_redirect (lower question) (normalize_output env final_output) in
  dict_get "redirect" response = dict_get "redirect" forced
  /\ dict_get "redirect_url" response = dict_get "redirect_url" forced.
Proof.
  intros Hq Hrun Hres forced.
  unfold respond, bind in Hres.
  rewrite (run_agent_returns _ _ _ _ _ Hrun) in Hres.
  fold forced in Hres. unfold confirm_order in Hres.
  rewrite Hq in Hres. unfold ret, speak in Hres.
  destruct (truthy (item "message" forced)).
  - unfold bind, emit, lift in Hres.
    destruct (gTTS_save env (item "message" forced)); [discriminate|].
    injection Hres as <- _.
    now rewrite !dict_get_set_other by discriminate.
  - injection Hres as <- _. now split.
Qed.

(** ** A request with neither question nor audio *)

(** C10, as the code has it.  A request that supplies neither question text
    (none, or an empty one) nor audio fails with status 500, and the detail
    is [str] of the caught 400 error: its status code, a colon and its
    message.  The world is untouched: no recognition, no agent run, no order
    written, no speech. *)
Theorem no_question_is_a_500
    (order_summary : option string) (w : World) :
  ask_agent env None None order_summary w
    = (inl (HTTPException 500 "400: No question or audio provided."), w)
  /\ ask_agent env (Some "") None order_summary w
    = (inl (HTTPException 500 "400: No question or audio provided."), w).
Proof. split; reflexivity. Qed.

(** ** Stored totals *)

(** The loop of [place_order] extends its two accumulators in step: the
    lines it appends carry the subtotals it adds to the total. *)
Lemma place_order_loop_completed (coll : list product)
    (items : list OrderToolItem) :
  forall (v : list pyval) (t : num) (v' : list pyval) (t' : num),
    place_order_loop env coll items v t = Completed v' t' ->
    exists (lines : list pyval) (subtotals : list num),
      v' = (v ++ lines)%list
      /\ map line_subtotal lines = map Some subtotals
      /\ num_sum_from t subtotals = inr t'.
Proof.
  induction items as [|it rest IH]; intros v t v' t' H;
    cbn [place_order_loop] in H.
  - injection H as <- <-. exists [], []. now rewrite app_nil_r.
  - destruct (find_one_name_regex env _ coll) as [e|[p|]]; try discriminate.
    destruct (price_of p) as [e|price]; try discriminate.
    destruct (int_as_float (item_quantity it)) as [e|factor];
      try discriminate.
    destruct (num_add t (NFloat (fl_mul price factor))) as [e|t1] eqn:Hadd;
      try discriminate.
    apply IH in H. destruct H as [lines [subtotals [Hv [Hsub Ht]]]].
    exists (validated_item p (item_quantity it) price (fl_mul price factor)
              :: lines),
           (NFloat (fl_mul price factor) :: subtotals).
    split; [|split].
    + now rewrite Hv, <- app_assoc.
    + cbn [map]. now rewrite Hsub.
    + cbn [num_sum_from]. now rewrite Hadd.
Qed.

(** The loop stops at the first item the lookup does not find, with a
    message that names it. *)
Lemma place_order_loop_returned (coll : list product)
    (items : list OrderToolItem) :
  forall (v : list pyval) (t : num) (d : dict),
    place_order_loop env coll items v t = Returned d ->
    exists it, In it items
      /\ find_one_name_regex env ("^" ++ item_name it ++ "$") coll = inr None
      /\ d = [ ("message", PStr (" Item '" ++ item_name it
                                    ++ "' not found in menu.")) ].
Proof.
  induction items as [|it rest IH]; intros v t d H;
    cbn [place_order_loop] in H.
  - discriminate.
  - destruct (find_one_name_regex env _ coll) as [e|[p|]] eqn:Hfind;
      try discriminate.
    + destruct (price_of p) as [e|price]; try discriminate.
      destruct (int_as_float (item_quantity it)) as [e|factor];
        try discriminate.
      destruct (num_add t (NFloat (fl_mul price factor))) as [e|t1];
        try discriminate.
      apply IH in H. destruct H as [it' [Hin H]].
      exists it'. split; [now right|exact H].
    + injection H as <-. exists it. split; [now left|now split].
Qed.

Lemma order_doc_total_is_sum (table_number : Z) (lines : list pyval)
    (subtotals : list num) (total : num) :
  map line_subtotal lines = map Some subtotals ->
  num_sum subtotals = inr total ->
  total_is_sum (order_doc env table_number lines total).
Proof.
  intros H Hsum. unfold total_is_sum, order_doc.
  eexists. exists lines, subtotals.
  split; [reflexivity|]. split; [reflexivity|]. split; [exact H|].
  exists total. split; [exact Hsum|reflexivity].
Qed.

(** What a call of [place_order] does to the orders collection. *)
Lemma place_order_writes (table_number : Z) (items : list OrderToolItem)
    (w : World) :
  orders (snd (place_order env table_number items w)) = orders w
  \/ exists doc,
       orders (snd (place_order env table_number items w))
         = (orders w ++ [doc])%list
       /\ total_is_sum doc.
Proof.
  unfold place_order.
  destruct (place_order_loop env (products w) items [] (NInt 0))
    as [e|d|v t] eqn:Hloop; [now left|now left|].
  apply place_order_loop_completed in Hloop.
  destruct Hloop as [lines [subtotals [-> [Hsub Hsum]]]].
  unfold bind, insert_one, ret.
  destruct (insert_one_fault env _); [now left|].
  right. eexists. split; [reflexivity|].
  now apply order_doc_total_is_sum with subtotals.
Qed.

(** What the safety net does to the orders collection. *)
Lemma confirm_order_writes (q : string) (context : pyval)
    (response_data : dict) (w : World) :
  orders (snd (confirm_order env q context response_data w)) = orders w
  \/ exists c,
       context = PDict c
       /\ orders (snd (confirm_order env q context response_data w))
          = (orders w ++ [PDict (saved_order env c)])%list.
Proof.
  unfold confirm_order.
  destruct (str_in "confirm order" q); [|now left].
  unfold try_except, bind, lift.
  destruct (context_usable context) as [e|[|]] eqn:Huse; [now left| |now left].
  destruct context as [| | | | |c|]; try (now left).
  unfold insert_one, ret.
  destruct (insert_one_fault env _); [now left|].
  right. exists c. now split.
Qed.

(** C2, as the code has it.  Every order [place_order] writes has a
    [totalAmount] equal to the sum of the subtotals of its lines, added from
    0 in line order.  Every order the confirm-order safety net writes is the
    context's own: its [totalAmount] is the context's total as supplied (0
    when there is none), whatever its lines say. *)
Theorem persisted_totals :
  (forall (table_number : Z) (items : list OrderToolItem) (w : World),
     orders (snd (place_order env table_number items w)) = orders w
     \/ exists doc,
          orders (snd (place_order env table_number items w))
            = (orders w ++ [doc])%list
          /\ total_is_sum doc)
  /\ (forall (q : string) (context : pyval) (response_data : dict) (w : World),
        orders (snd (confirm_order env q context response_data w)) = orders w
        \/ exists c,
             context = PDict c
             /\ orders (snd (confirm_order env q context response_data w))
                = (orders w ++ [PDict (saved_order env c)])%list
             /\ dict_get "items" (saved_order env c)
                = Some (dict_get_default "items" PNone c)
             /\ dict_get "totalAmount" (saved_order env c)
                = Some (dict_get_default "total" (PNum (NInt 0)) c)).
Proof.
  split.
  - apply place_order_writes.
  - intros q context response_data w.
    destruct (confirm_order_writes q context response_data w)
      as [H|[c [Hc H]]]; [now left|].
    right. exists c. repeat split; assumption.
Qed.

(** ** RapidFuzz *)

Lemma lcs_cons (a b : ascii) (r1 r2 : string) :
  RapidFuzz.lcs (String a r1) (String b r2)
  = if Ascii.eqb a b then S (RapidFuzz.lcs r1 r2)
    else Nat.max (RapidFuzz.lcs r1 (String b r2))
                 (RapidFuzz.lcs (String a r1) r2).
Proof. reflexivity. Qed.

Lemma lcs_nil_r (s : string) : RapidFuzz.lcs s EmptyString = O.
Proof. now destruct s. Qed.

Lemma lcs_le (s1 : string) :
  forall s2, (RapidFuzz.lcs s1 s2 <= String.length s1
              /\ RapidFuzz.lcs s1 s2 <= String.length s2)%nat.
Proof.
  induction s1 as [|a r1 IH1]; intros s2.
  - simpl. lia.
  - induction s2 as [|b r2 IH2].
    + rewrite lcs_nil_r. simpl. lia.
    + rewrite lcs_cons. destruct (Ascii.eqb a b).
      * specialize (IH1 r2). simpl. lia.
      * specialize (IH1 (String b r2)). simpl in *. lia.
Qed.

(** A common subsequence as long as both strings makes them equal. *)
Lemma lcs_full (s1 : string) :
  forall s2, RapidFuzz.lcs s1 s2 = String.length s1 ->
             String.length s1 = String.length s2 -> s1 = s2.
Proof.
  induction s1 as [|a r1 IH]; intros [|b r2] Hl Hlen; try discriminate.
  - reflexivity.
  - rewrite lcs_cons in Hl. destruct (Ascii.eqb a b) eqn:E.
    + apply Ascii.eqb_eq in E. subst b. f_equal.
      apply IH; simpl in *; lia.
    + exfalso.
      pose proof (lcs_le r1 (String b r2)) as [H1 _].
      pose proof (lcs_le (String a r1) r2) as [_ H2].
      simpl in *. lia.
Qed.

Lemma indel_normalized_distance_range (s1 s2 : string) :
  (0 <= RapidFuzz.indel_normalized_distance s1 s2 <= 1)%Q.
Proof.
  unfold RapidFuzz.indel_normalized_distance, RapidFuzz.indel_distance.
  destruct (Nat.eqb_spec (String.length s1 + String.length s2) 0) as [E|E].
  - split; discriminate.
  - assert (Hm : Z.pos (Pos.of_nat (String.length s1 + String.length s2))
                 = Z.of_nat (String.length s1 + String.length s2))
      by (rewrite <- positive_nat_Z, Nat2Pos.id by exact E; reflexivity).
    unfold Qle. cbn [Qnum Qden]. rewrite Hm.
    split; lia.
Qed.

(** The score lies between 0 and 100. *)
Lemma ratio_range (s1 s2 : string) :
  (0 <= RapidFuzz.ratio s1 s2 <= 100)%Q.
Proof.
  unfold RapidFuzz.ratio.
  pose proof (indel_normalized_distance_range s1 s2) as [H0 H1].
  revert H0 H1. generalize (RapidFuzz.indel_normalized_distance s1 s2).
  intros d H0 H1. split.
  - setoid_replace 0%Q with (0 * 100)%Q by reflexivity.
    apply Qmult_le_compat_r; [|discriminate].
    apply (Qplus_le_r _ _ d). ring_simplify. exact H1.
  - setoid_replace 100%Q with (1 * 100)%Q at 2 by reflexivity.
    apply Qmult_le_compat_r; [|discriminate].
    apply (Qplus_le_r _ _ d). ring_simplify.
    apply (Qplus_le_r _ _ (-(1))). ring_simplify. exact H0.
Qed.

(** Only equal strings score 100. *)
Lemma ratio_100_eq (s1 s2 : string) :
  Qeq_bool (RapidFuzz.ratio s1 s2) 100 = true -> s1 = s2.
Proof.
  intros H. apply Qeq_bool_iff in H.
  unfold RapidFuzz.ratio, RapidFuzz.indel_normalized_distance,
    RapidFuzz.indel_distance in H.
  destruct (Nat.eqb_spec (String.length s1 + String.length s2) 0) as [E|E].
  - destruct s1, s2; simpl in E; try lia. reflexivity.
  - pose proof (lcs_le s1 s2) as [Hl1 Hl2].
    assert (Hm : Z.pos (Pos.of_nat (String.length s1 + String.length s2))
                 = Z.of_nat (String.length s1 + String.length s2))
      by (rewrite <- positive_nat_Z, Nat2Pos.id by exact E; reflexivity).
    unfold Qeq, Qminus, Qplus, Qmult, Qopp in H. cbn [Qnum Qden] in H.
    rewrite Pos.mul_1_l, Pos.mul_1_r, Hm in H.
    apply lcs_full; lia.
Qed.

(** With a best result in hand and no choice at the optimal score, the scan
    calls the scorer on every choice, and ends either on the best result it
    started with, every choice scoring at most as much, or on the first
    choice of greatest score, which beats the start. *)
Lemma extractOne_loop_spec (scorer : string -> string -> Q) (query : string)
    (choices : list string) :
  forall (idx : nat) (bc : string) (bs : Q) (bi : nat),
    (forall c, In c choices -> Qeq_bool (scorer query c) 100 = false) ->
    (RapidFuzz.extractOne_loop scorer query choices idx (Some (bc, bs, bi))
       = (Some (bc, bs, bi), choices)
     /\ forall c, In c choices -> (scorer query c <= bs)%Q)
    \/ exists pre c post,
         choices = (pre ++ c :: post)%list
         /\ RapidFuzz.extractOne_loop scorer query choices idx
              (Some (bc, bs, bi))
            = (Some (c, scorer query c, (idx + List.length pre)%nat), choices)
         /\ (bs < scorer query c)%Q
         /\ (forall x, In x pre -> (scorer query x < scorer query c)%Q)
         /\ (forall x, In x post -> (scorer query x <= scorer query c)%Q).
Proof.
  induction choices as [|c0 rest IH]; intros idx bc bs bi Hno.
  - left. split; [reflexivity|]. intros c [].
  - assert (Hno' : forall c, In c rest -> Qeq_bool (scorer query c) 100 = false)
      by (intros c Hc; apply Hno; now right).
    cbn [RapidFuzz.extractOne_loop]. rewrite (Hno c0 (or_introl eq_refl)).
    destruct (Qle_bool (scorer query c0) bs) eqn:Hle; cbn [negb].
    + apply Qle_bool_iff in Hle.
      destruct (IH (S idx) bc bs bi Hno') as [[Heq Hall]|[pre [c [post H]]]].
      * left. rewrite Heq. split; [reflexivity|].
        intros c [<-|Hc]; [exact Hle|now apply Hall].
      * destruct H as [-> [Heq [Hlt [Hpre Hpost]]]].
        right. exists (c0 :: pre), c, post. rewrite Heq.
        split; [reflexivity|]. split.
        { cbn [List.length]. now rewrite Nat.add_succ_r. }
        split; [exact Hlt|]. split; [|exact Hpost].
        intros x [<-|Hx]; [|now apply Hpre].
        now apply Qle_lt_trans with bs.
    + assert (Hgt : (bs < scorer query c0)%Q).
      { apply Qnot_le_lt. intros Hc. apply Qle_bool_iff in Hc. congruence. }
      destruct (IH (S idx) c0 (scorer query c0) idx Hno')
        as [[Heq Hall]|[pre [c [post H]]]].
      * right. exists [], c0, rest. rewrite Heq.
        split; [reflexivity|]. split.
        { cbn [List.length]. now rewrite Nat.add_0_r. }
        split; [exact Hgt|]. split; [intros x []|exact Hall].
      * destruct H as [-> [Heq [Hlt [Hpre Hpost]]]].
        right. exists (c0 :: pre), c, post. rewrite Heq.
        split; [reflexivity|]. split.
        { cbn [List.length]. now rewrite Nat.add_succ_r. }
        split; [now apply Qlt_trans with (scorer query c0)|].
        split; [|exact Hpost].
        intros x [<-|Hx]; [exact Hlt|now apply Hpre].
Qed.

(** On choices none of which scores 100, [extractOne] calls the scorer on
    each of them and returns the first choice of greatest score, with its
    index. *)
Lemma extractOne_spec (scorer : string -> string -> Q) (query : string)
    (choices : list string) :
  choices <> [] ->
  (forall c, In c choices -> Qeq_bool (scorer query c) 100 = false) ->
  exists pre c post,
    choices = (pre ++ c :: post)%list
    /\ RapidFuzz.extractOne scorer query choices
       = (Some (c, scorer query c, List.length pre), choices)
    /\ (forall x, In x pre -> (scorer query x < scorer query c)%Q)
    /\ (forall x, In x post -> (scorer query x <= scorer query c)%Q).
Proof.
  intros Hne Hno. destruct choices as [|c0 rest]; [congruence|].
  unfold RapidFuzz.extractOne. cbn [RapidFuzz.extractOne_loop].
  rewrite (Hno c0 (or_introl eq_refl)).
  destruct (extractOne_loop_spec scorer query rest 1 c0 (scorer query c0) 0)
    as [[Heq Hall]|[pre [c [post H]]]].
  - intros c Hc. apply Hno. now right.
  - exists [], c0, rest. rewrite Heq.
    split; [reflexivity|]. split; [reflexivity|].
    split; [intros x []|exact Hall].
  - destruct H as [-> [Heq [Hlt [Hpre Hpost]]]].
    exists (c0 :: pre), c, post. rewrite Heq.
    split; [reflexivity|]. split; [reflexivity|].
    split; [|exact Hpost].
    intros x [<-|Hx]; [exact Hlt|now apply Hpre].
Qed.

(** A scan that starts with a best result ends with one. *)
Lemma extractOne_loop_some (scorer : string -> string -> Q) (query : string)
    (choices : list string) :
  forall (idx : nat) (bc : string) (bs : Q) (bi : nat),
    exists c s i scored,
      RapidFuzz.extractOne_loop scorer query choices idx (Some (bc, bs, bi))
      = (Some (c, s, i), scored).
Proof.
  induction choices as [|c0 rest IH]; intros idx bc bs bi.
  - now exists bc, bs, bi, [].
  - cbn [RapidFuzz.extractOne_loop].
    destruct (negb (Qle_bool (scorer query c0) bs));
      destruct (Qeq_bool (scorer query c0) 100); cbv beta iota zeta.
    + now do 4 eexists.
    + destruct (IH (S idx) c0 (scorer query c0) idx) as [c [s [i [scored ->]]]].
      now exists c, s, i, (c0 :: scored).
    + now do 4 eexists.
    + destruct (IH (S idx) bc bs bi) as [c [s [i [scored ->]]]].
      now exists c, s, i, (c0 :: scored).
Qed.

(** ** The resolver *)

(** The resolver always answers: the unpacking of [extractOne]'s result
    cannot fail on a catalog that is not empty. *)
Lemma resolve_returns (product_name : string) (all_products : list product) :
  exists r, resolve product_name all_products = inr r.
Proof.
  unfold resolve.
  destruct (exact_match product_name all_products); [now eexists|].
  destruct all_products as [|p0 rest]; [now eexists|].
  unfold RapidFuzz.extractOne. cbn [map RapidFuzz.extractOne_loop].
  set (s0 := RapidFuzz.ratio product_name (p_name p0)).
  destruct (Qeq_bool s0 100).
  - destruct (Qle_bool 70 s0); now eexists.
  - destruct (extractOne_loop_some RapidFuzz.ratio product_name
                (map p_name rest) 1 (p_name p0) s0 O) as [c [s [i [scored ->]]]].
    destruct (Qle_bool 70 s); now eexists.
Qed.

Lemma find_first (A : Type) (f : A -> bool) (l : list A) (x : A) :
  find f l = Some x ->
  exists pre post, l = (pre ++ x :: post)%list
                   /\ f x = true
                   /\ forall y, In y pre -> f y = false.
Proof.
  induction l as [|a r IH]; [discriminate|]. simpl.
  destruct (f a) eqn:E.
  - intros [= <-]. exists [], r. split; [reflexivity|].
    split; [exact E|intros y []].
  - intros H. destruct (IH H) as [pre [post [-> [Hx Hpre]]]].
    exists (a :: pre), post. split; [reflexivity|]. split; [exact Hx|].
    intros y [<-|Hy]; [exact E|now apply Hpre].
Qed.

(** C4. The exact-match short-circuit.  When the query equals, case apart,
    the name of some candidate, the resolver returns the first such
    candidate in input order, and the scorer is called on no candidate. *)
Theorem resolve_exact_match (product_name : string)
    (all_products : list product) :
  (exists p, In p all_products /\ lower (p_name p) = lower product_name) ->
  exists pre p post,
    all_products = (pre ++ p :: post)%list
    /\ lower (p_name p) = lower product_name
    /\ (forall x, In x pre -> lower (p_name x) <> lower product_name)
    /\ resolve product_name all_products = inr (Some p, []).
Proof.
  intros [p0 [Hin Hp0]]. unfold resolve, exact_match.
  destruct (find _ all_products) as [p|] eqn:Hfind.
  - destruct (find_first _ _ _ _ Hfind) as [pre [post [-> [Hp Hpre]]]].
    exists pre, p, post. split; [reflexivity|].
    split; [now apply String.eqb_eq|]. split; [|reflexivity].
    intros x Hx. apply String.eqb_neq. now apply Hpre.
  - exfalso. apply (find_none _ _ Hfind) in Hin.
    apply String.eqb_neq in Hin. contradiction.
Qed.

Lemma exact_match_none (product_name : string) (all_products : list product) :
  (forall p, In p all_products -> lower (p_name p) <> lower product_name) ->
  exact_match product_name all_products = None.
Proof.
  intros H. unfold exact_match.
  destruct (find _ all_products) as [p|] eqn:Hfind; [|reflexivity].
  apply find_some in Hfind. destruct Hfind as [Hin Heq].
  apply String.eqb_eq in Heq. now apply H in Hin.
Qed.

(** C3. The fuzzy fallback.  Let no candidate name equal the query, case
    apart.  Every score of the query against a candidate name lies between
    0 and 100.  On an empty candidate list the item is not found.
    Otherwise the scorer is called on every candidate name, and with [best]
    the first candidate of greatest score: the resolver returns [best] when
    that score is at least 70, and reports the item as not found when it is
    below 70. *)
Theorem resolve_fuzzy_match (product_name : string)
    (all_products : list product) :
  (forall p, In p all_products -> lower (p_name p) <> lower product_name) ->
  (forall p, In p all_products ->
     (0 <= RapidFuzz.ratio product_name (p_name p) <= 100)%Q)
  /\ (all_products = [] -> resolve product_name all_products = inr (None, []))
  /\ (all_products <> [] ->
      exists pre best post,
        all_products = (pre ++ best :: post)%list
        /\ (forall p, In p pre ->
              (RapidFuzz.ratio product_name (p_name p)
               < RapidFuzz.ratio product_name (p_name best))%Q)
        /\ (forall p, In p post ->
              (RapidFuzz.ratio product_name (p_name p)
               <= RapidFuzz.ratio product_name (p_name best))%Q)
        /\ ((70 <= RapidFuzz.ratio product_name (p_name best))%Q ->
            resolve product_name all_products
            = inr (Some best, map p_name all_products))
        /\ ((RapidFuzz.ratio product_name (p_name best) < 70)%Q ->
            resolve product_name all_products
            = inr (None, map p_name all_products))).
Proof.
  intros Hnone. split; [|split].
  - intros p _. apply ratio_range.
  - intros ->. reflexivity.
  - intros Hne.
    assert (Hno : forall c, In c (map p_name all_products) ->
                    Qeq_bool (RapidFuzz.ratio product_name c) 100 = false).
    { intros c Hc. apply in_map_iff in Hc. destruct Hc as [p [<- Hp]].
      destruct (Qeq_bool _ 100) eqn:E; [|reflexivity].
      apply ratio_100_eq in E. exfalso. apply (Hnone p Hp). now rewrite E. }
    assert (Hnames : map p_name all_products <> [])
      by (destruct all_products; [congruence|discriminate]).
    destruct (extractOne_spec RapidFuzz.ratio product_name _ Hnames Hno)
      as [npre [c [npost [Hsplit [Hext [Hpre Hpost]]]]]].
    destruct (map_eq_app _ _ _ _ Hsplit) as [pre [tail [Hall [Hmpre Hmtail]]]].
    destruct (map_eq_cons _ _ Hmtail) as [best [post [-> [Hbest Hmpost]]]].
    subst c npre npost.
    assert (Hnth : nth_error all_products (List.length (map p_name pre))
                   = Some best).
    { rewrite Hall, length_map, nth_error_app2 by lia.
      now rewrite Nat.sub_diag. }
    assert (Hresolve : resolve product_name all_products
              = if Qle_bool 70 (RapidFuzz.ratio product_name (p_name best))
                then inr (Some best, map p_name all_products)
                else inr (None, map p_name all_products)).
    { unfold resolve. rewrite (exact_match_none _ _ Hnone).
      destruct all_products as [|p0 ps]; [congruence|].
      rewrite Hext, Hnth. reflexivity. }
    exists pre, best, post. split; [exact Hall|].
    split; [|split; [|split]].
    + intros p Hp. apply Hpre. now apply in_map.
    + intros p Hp. apply Hpost. now apply in_map.
    + intros H. apply Qle_bool_iff in H. now rewrite Hresolve, H.
    + intros H. rewrite Hresolve.
      destruct (Qle_bool 70 _) eqn:E; [|reflexivity].
      apply Qle_bool_iff in E. exfalso. now apply (Qlt_not_le _ _ H).
Qed.

(** ** The not-found answer of [add_to_order_tool] *)

Lemma startswith_app (p s : string) : startswith p (p ++ s) = true.
Proof.
  unfold startswith. induction p as [|c p IH]; simpl.
  - now destruct s.
  - destruct (ascii_dec c c); [exact IH|congruence].
Qed.

Lemma str_in_app (needle before after : string) :
  str_in needle (before ++ needle ++ after) = true.
Proof.
  induction before as [|c b IH]; simpl.
  - destruct (needle ++ after) eqn:E; unfold str_in; fold str_in;
      rewrite <- E, startswith_app; reflexivity.
  - unfold str_in; fold str_in. rewrite IH. apply orb_true_r.
Qed.

(** C5. When the resolver finds no product for the requested name, the
    add-to-order step returns normally: its message is the not-found
    sentence around the requested name, its items list is empty and its
    total is the integer 0. *)
Theorem add_to_order_not_found (products_data : list (string * list product))
    (table_number : Z) (product_name : string) (quantity : Z) :
  (forall p scored,
     resolve product_name (flatten_products products_data)
     <> inr (Some p, scored)) ->
  exists d,
    add_to_order_tool products_data table_number product_name quantity = inr d
    /\ dict_get "message" d
       = Some (PStr (" Sorry, " ++ product_name
                       ++ " is not available in our menu."))
    /\ str_in product_name
         (" Sorry, " ++ product_name ++ " is not available in our menu.")
       = true
    /\ dict_get "items" d = Some (PList [])
    /\ dict_get "total" d = Some (PNum (NInt 0)).
Proof.
  intros Hnot. unfold add_to_order_tool.
  destruct (resolve_returns product_name (flatten_products products_data))
    as [[[p|] scored] Hr]; rewrite Hr.
  - exfalso. now apply (Hnot p scored).
  - eexists. split; [reflexivity|]. split; [reflexivity|].
    split; [apply str_in_app|]. split; reflexivity.
Qed.

(** ** [place_order]: nothing is written unless every lookup succeeds *)

Lemma place_order_loop_completed_found (coll : list product)
    (items : list OrderToolItem) :
  forall (v : list pyval) (t : num) (v' : list pyval) (t' : num),
    place_order_loop env coll items v t = Completed v' t' ->
    forall it, In it items ->
      exists p, find_one_name_regex env ("^" ++ item_name it ++ "$") coll
                = inr (Some p).
Proof.
  induction items as [|it0 rest IH]; intros v t v' t' H it Hin.
  - destruct Hin.
  - cbn [place_order_loop] in H.
    destruct (find_one_name_regex env _ coll) as [e|[p|]] eqn:Hfind;
      try discriminate.
    destruct (price_of p) as [e|price]; try discriminate.
    destruct (int_as_float (item_quantity it0)) as [e|factor];
      try discriminate.
    destruct (num_add t (NFloat (fl_mul price factor))) as [e|t1];
      try discriminate.
    destruct Hin as [<-|Hin]; [now exists p|].
    now apply (IH _ _ _ _ H).
Qed.

(** X1. All or nothing, on the lookup the code performs.  A call with an
    item the lookup does not find leaves the orders as they were; when it
    returns, it returns a message that names such an item. *)
Theorem place_order_unfound (table_number : Z) (items : list OrderToolItem)
    (w : World) (missing : OrderToolItem) :
  In missing items ->
  find_one_name_regex env ("^" ++ item_name missing ++ "$") (products w)
    = inr None ->
  orders (snd (place_order env table_number items w)) = orders w
  /\ forall d, fst (place_order env table_number items w) = inr d ->
       exists it, In it items
         /\ find_one_name_regex env ("^" ++ item_name it ++ "$") (products w)
            = inr None
         /\ d = [ ("message", PStr (" Item '" ++ item_name it
                                       ++ "' not found in menu.")) ].
Proof.
  intros Hin Hmiss. unfold place_order.
  destruct (place_order_loop env (products w) items [] (NInt 0))
    as [e|d|v t] eqn:Hloop.
  - split; [reflexivity|]. intros d [=].
  - split; [reflexivity|]. intros d' [= <-].
    now apply (place_order_loop_returned _ _ _ _ _ Hloop).
  - exfalso.
    destruct (place_order_loop_completed_found _ _ _ _ _ _ Hloop _ Hin)
      as [p Hp].
    congruence.
Qed.

(* ================================================================== *)
(** * Further properties of the code *)

(** ** The catalog as [/products] groups it *)

Lemma filter_none (A : Type) (f : A -> bool) (l : list A) :
  (forall x, In x l -> f x = false) -> filter f l = [].
Proof.
  induction l as [|a r IH]; intros H; [reflexivity|].
  cbn [filter]. rewrite (H a (or_introl eq_refl)).
  apply IH. intros x Hx. apply H. now right.
Qed.

Lemma get_all_products_snoc (coll : list product) (p : product) :
  get_all_products (coll ++ [p])
  = setdefault_append (p_category p) p (get_all_products coll).
Proof. unfold get_all_products. now rewrite fold_left_app. Qed.

Lemma setdefault_append_keys (cat : string) (p : product)
    (menu : list (string * list product)) :
  map fst (setdefault_append cat p menu)
  = if existsb (fun c => String.eqb c cat) (map fst menu)
    then map fst menu else (map fst menu ++ [cat])%list.
Proof.
  induction menu as [|[c l] r IH]; [reflexivity|].
  cbn [setdefault_append map existsb fst].
  destruct (String.eqb c cat); cbn [orb map fst]; [reflexivity|].
  rewrite IH. now destruct (existsb _ (map fst r)).
Qed.

Lemma setdefault_append_in (cat : string) (p : product)
    (menu : list (string * list product)) (c : string) (l : list product) :
  NoDup (map fst menu) ->
  In (c, l) (setdefault_append cat p menu) ->
  (c <> cat /\ In (c, l) menu)
  \/ (c = cat
      /\ ((exists l0, In (cat, l0) menu /\ l = (l0 ++ [p])%list)
          \/ (~ In cat (map fst menu) /\ l = [p]))).
Proof.
  induction menu as [|[c0 l0] r IH]; intros Hnd Hin.
  - destruct Hin as [[= <- <-]|[]]. right. split; [reflexivity|].
    right. split; [intros []|reflexivity].
  - cbn [setdefault_append] in Hin. cbn [map fst] in Hnd.
    inversion Hnd as [|? ? Hnotin Hnd']; subst.
    destruct (String.eqb_spec c0 cat) as [->|Hne].
    + destruct Hin as [[= <- <-]|Hin].
      * right. split; [reflexivity|]. left. exists l0. split; [now left|reflexivity].
      * left. split; [|now right].
        intros ->. apply Hnotin. apply in_map_iff. now exists (cat, l).
    + destruct Hin as [[= <- <-]|Hin].
      * left. split; [exact Hne|now left].
      * destruct (IH Hnd' Hin) as [[Hc Hin']|[-> [[l1 [Hin' ->]]|[Hnot ->]]]].
        -- left. split; [exact Hc|now right].
        -- right. split; [reflexivity|]. left. exists l1. split; [now right|reflexivity].
        -- right. split; [reflexivity|]. right. split; [|reflexivity].
           intros [Heq|Hin']; [now apply Hne|now apply Hnot].
Qed.

(** The invariant of the grouping loop over the documents read so far. *)
Lemma get_all_products_invariant (coll : list product) :
  NoDup (map fst (get_all_products coll))
  /\ (forall p, In p coll ->
        In (p_category p) (map fst (get_all_products coll)))
  /\ (forall c l, In (c, l) (get_all_products coll) ->
        l = filter (in_category c) coll /\ l <> []).
Proof.
  induction coll as [|p coll IH] using rev_ind.
  - split; [constructor|]. split; [intros p []|intros c l []].
  - destruct IH as [Hnd [Hkeys Hgroups]].
    rewrite get_all_products_snoc.
    assert (Hk := setdefault_append_keys (p_category p) p (get_all_products coll)).
    split; [|split].
    + rewrite Hk.
      destruct (existsb _ (map fst (get_all_products coll))) eqn:E; [exact Hnd|].
      apply NoDup_app; [exact Hnd|repeat constructor; intros []|].
      intros c Hc [<-|[]].
      assert (existsb (fun c0 => String.eqb c0 (p_category p))
                (map fst (get_all_products coll)) = true); [|congruence].
      apply existsb_exists. exists (p_category p). split; [exact Hc|apply String.eqb_refl].
    + intros q Hq. rewrite Hk.
      destruct (existsb _ (map fst (get_all_products coll))) eqn:E.
      * apply in_app_or in Hq. destruct Hq as [Hq|[<-|[]]]; [now apply Hkeys|].
        apply existsb_exists in E. destruct E as [c [Hc Heq]].
        apply String.eqb_eq in Heq. now subst c.
      * apply in_or_app. apply in_app_or in Hq.
        destruct Hq as [Hq|[<-|[]]]; [left; now apply Hkeys|right; now left].
    + intros c l Hin. rewrite filter_app. cbn [filter]. unfold in_category at 2.
      destruct (setdefault_append_in _ _ _ _ _ Hnd Hin)
        as [[Hc Hin']|[-> [[l0 [Hin' ->]]|[Hnot ->]]]].
      * destruct (Hgroups c l Hin') as [-> Hne].
        replace (String.eqb (p_category p) c) with false.
        -- now rewrite app_nil_r.
        -- symmetry. apply String.eqb_neq. congruence.
      * destruct (Hgroups _ l0 Hin') as [-> Hne].
        rewrite String.eqb_refl. split; [reflexivity|].
        now destruct (filter _ coll).
      * rewrite String.eqb_refl.
        replace (filter (in_category (p_category p)) coll) with (@nil product).
        -- split; [reflexivity|discriminate].
        -- symmetry. apply filter_none. intros q Hq.
           apply String.eqb_neq. intros Heq. apply Hnot.
           rewrite <- Heq. now apply Hkeys.
Qed.

(** X3. What [get_all_products] (and [get_all_deals], the same code on the
    other collection) answers: one entry per category that occurs, with no
    category twice; under each category exactly the documents of that
    category, in the order of the collection, never an empty list; and every
    document of the collection is listed under its own category. *)
Theorem get_all_products_groups (coll : list product) :
  NoDup (map fst (get_all_products coll))
  /\ (forall c l, In (c, l) (get_all_products coll) ->
        l = filter (in_category c) coll /\ l <> [])
  /\ (forall p, In p coll ->
        In (p_category p, filter (in_category (p_category p)) coll)
           (get_all_products coll)).
Proof.
  destruct (get_all_products_invariant coll) as [Hnd [Hkeys Hgroups]].
  split; [exact Hnd|]. split; [exact Hgroups|].
  intros p Hp. specialize (Hkeys p Hp).
  apply in_map_iff in Hkeys. destruct Hkeys as [[c l] [Hc Hin]].
  cbn [fst] in Hc. subst c.
  now rewrite <- (proj1 (Hgroups _ _ Hin)).
Qed.

Lemma flatten_setdefault_append (cat : string) (p : product)
    (menu : list (string * list product)) :
  Permutation (flatten_products (setdefault_append cat p menu))
              (flatten_products menu ++ [p]).
Proof.
  unfold flatten_products.
  induction menu as [|[c l] r IH]; [reflexivity|].
  cbn [setdefault_append]. destruct (String.eqb c cat); cbn [map snd List.concat].
  - rewrite <- !app_assoc. apply Permutation_app_head, Permutation_app_comm.
  - rewrite <- app_assoc. now apply Permutation_app_head.
Qed.

Lemma flatten_get_all_products_perm (coll : list product) :
  Permutation (flatten_products (get_all_products coll)) coll.
Proof.
  induction coll as [|p coll IH] using rev_ind; [reflexivity|].
  rewrite get_all_products_snoc, flatten_setdefault_append.
  now apply Permutation_app_tail.
Qed.

(** X4. The candidates of [add_to_order_tool] are the catalog: flattening
    the grouped answer of [/products] gives every stored document exactly
    once (regrouped by category, so possibly in another order). *)
Theorem flatten_get_all_products (coll : list product) :
  Permutation (flatten_products (get_all_products coll)) coll
  /\ (forall p, In p (flatten_products (get_all_products coll)) <-> In p coll)
  /\ List.length (flatten_products (get_all_products coll)) = List.length coll.
Proof.
  pose proof (flatten_get_all_products_perm coll) as H.
  split; [exact H|]. split.
  - intros p. split; apply Permutation_in; [exact H|now symmetry].
  - now apply Permutation_length.
Qed.

(** ** What the resolver can return *)

(** Whatever the scan returns is one of the choices, at its own index and
    with its own score. *)
Lemma extractOne_loop_result (scorer : string -> string -> Q) (query : string)
    (choices : list string) :
  forall (seen : list string) (idx : nat)
         (best : option (string * Q * nat))
         (res : option (string * Q * nat)) (scored : list string),
    idx = List.length seen ->
    (forall bc bs bi, best = Some (bc, bs, bi) ->
       bs = scorer query bc
       /\ nth_error (seen ++ choices) bi = Some bc) ->
    RapidFuzz.extractOne_loop scorer query choices idx best = (res, scored) ->
    forall c s i, res = Some (c, s, i) ->
      s = scorer query c /\ nth_error (seen ++ choices) i = Some c.
Proof.
  induction choices as [|c0 rest IH];
    intros seen idx best res scored Hidx Hbest Hrun c s i Hres.
  - cbn [RapidFuzz.extractOne_loop] in Hrun.
    apply (f_equal fst) in Hrun. cbn [fst] in Hrun. subst res.
    rewrite Hres in Hbest. now apply Hbest.
  - cbn [RapidFuzz.extractOne_loop] in Hrun.
    set (best' := match best with
                  | Some (_, result_score, _) =>
                      if negb (Qle_bool (scorer query c0) result_score)
                      then Some (c0, scorer query c0, idx) else best
                  | None => Some (c0, scorer query c0, idx)
                  end) in Hrun.
    assert (Hhere : nth_error (seen ++ c0 :: rest) idx = Some c0).
    { rewrite Hidx, nth_error_app2 by lia. now rewrite Nat.sub_diag. }
    assert (Hbest' : forall bc bs bi, best' = Some (bc, bs, bi) ->
              bs = scorer query bc
              /\ nth_error (seen ++ c0 :: rest) bi = Some bc).
    { intros bc bs bi. unfold best'.
      destruct best as [[[c1 s1] i1]|].
      - destruct (negb (Qle_bool (scorer query c0) s1)).
        + intros [= <- <- <-]. now split.
        + apply Hbest.
      - intros [= <- <- <-]. now split. }
    destruct (Qeq_bool (scorer query c0) 100).
    + apply (f_equal fst) in Hrun. cbn [fst] in Hrun.
      change (best' = res) in Hrun. subst res. now apply Hbest'.
    + change (RapidFuzz.extractOne_loop scorer query rest (S idx) _)
        with (RapidFuzz.extractOne_loop scorer query rest (S idx) best')
        in Hrun.
      destruct (RapidFuzz.extractOne_loop scorer query rest (S idx) best')
        as [res' scored'] eqn:Hrec.
      apply (f_equal fst) in Hrun. cbn [fst] in Hrun. subst res'.
      replace (seen ++ c0 :: rest)%list with ((seen ++ [c0]) ++ rest)%list
        in * by now rewrite <- app_assoc.
      apply (IH (seen ++ [c0])%list (S idx) best' res scored'); try assumption.
      rewrite length_app, Hidx. cbn [List.length]. lia.
Qed.

Lemma resolve_cases (product_name : string) (all_products : list product)
    (p : product) (scored : list string) :
  resolve product_name all_products = inr (Some p, scored) ->
  In p all_products
  /\ ((lower (p_name p) = lower product_name /\ scored = [])
      \/ ((forall x, In x all_products ->
             lower (p_name x) <> lower product_name)
          /\ (70 <= RapidFuzz.ratio product_name (p_name p))%Q)).
Proof.
  unfold resolve, exact_match.
  destruct (find _ all_products) as [p0|] eqn:Hfind.
  - intros [= <- <-]. apply find_some in Hfind. destruct Hfind as [Hin Heq].
    split; [exact Hin|]. left. split; [now apply String.eqb_eq|reflexivity].
  - destruct all_products as [|p0 rest] eqn:Hall; [discriminate|].
    rewrite <- Hall in *.
    destruct (RapidFuzz.extractOne RapidFuzz.ratio product_name
                (map p_name all_products)) as [[[[c s] i]|] scored'] eqn:Hext;
      [|discriminate].
    destruct (Qle_bool 70 s) eqn:Hle; [|discriminate].
    intros [= Hnth <-].
    destruct (extractOne_loop_result RapidFuzz.ratio product_name
                (map p_name all_products) [] 0 None _ _ eq_refl
                ltac:(discriminate) Hext c s i eq_refl) as [Hs Hc].
    cbn [app] in Hc. rewrite nth_error_map, Hnth in Hc. injection Hc as <-.
    split; [now apply nth_error_In with i|]. right. split.
    + intros x Hx. apply String.eqb_neq. exact (find_none _ _ Hfind x Hx).
    + apply Qle_bool_iff. now rewrite <- Hs.
Qed.

(** X5. The resolver never invents a product.  What it returns is a
    document of the candidate list, and is there for one of two reasons:
    its name equals the query, case apart, and nothing was scored; or no
    name equals the query, case apart, and its score against the query is
    at least 70. *)
Theorem resolve_sound (product_name : string) (all_products : list product)
    (p : product) (scored : list string) :
  resolve product_name all_products = inr (Some p, scored) ->
  In p all_products
  /\ ((lower (p_name p) = lower product_name /\ scored = [])
      \/ ((forall x, In x all_products ->
             lower (p_name x) <> lower product_name)
          /\ (70 <= RapidFuzz.ratio product_name (p_name p))%Q)).
Proof. apply resolve_cases. Qed.


(** ** The answers of [add_to_order_tool] *)

(** X6. Every answer of [add_to_order_tool] has one of two shapes.  Not
    found: no line, total 0, no redirect.  Found: a single line for a
    document [p] of the catalog, under the catalog's name for it, with the
    quantity asked, the price parsed from the stored price and the subtotal
    price times quantity (the quantity converted to a float); the total is
    that subtotal, and the answer redirects to the order summary. *)
Theorem add_to_order_tool_answers
    (products_data : list (string * list product))
    (table_number : Z) (product_name : string) (quantity : Z) (d : dict) :
  add_to_order_tool products_data table_number product_name quantity = inr d ->
  (dict_get "items" d = Some (PList [])
   /\ dict_get "total" d = Some (PNum (NInt 0))
   /\ dict_get "redirect" d = Some (PBool false))
  \/ exists p price factor,
       In p (flatten_products products_data)
       /\ float_of_string (p_price p) = Some price
       /\ int_as_float quantity = inr factor
       /\ dict_get "items" d
          = Some (PList
                    [ PDict
                        [ ("name", PStr (p_name p));
                          ("quantity", PNum (NInt quantity));
                          ("price", PNum (NFloat price));
                          ("subtotal", PNum (NFloat (fl_mul price factor)));
                          ("image", PStr (p_image p)) ] ])
       /\ dict_get "total" d = Some (PNum (NFloat (fl_mul price factor)))
       /\ dict_get "table_number" d = Some (PNum (NInt table_number))
       /\ dict_get "redirect" d = Some (PBool true)
       /\ dict_get "redirect_url" d = Some (PStr "/order_summary").
Proof.
  unfold add_to_order_tool.
  destruct (resolve product_name (flatten_products products_data))
    as [e|[[p|] scored]] eqn:Hres; [discriminate| |].
  - unfold price_of.
    destruct (float_of_string (p_price p)) as [price|] eqn:Hprice;
      [|discriminate].
    destruct (int_as_float quantity) as [e|factor] eqn:Hfactor;
      [discriminate|].
    intros [= <-]. right. exists p, price, factor.
    split; [exact (proj1 (resolve_cases _ _ _ _ Hres))|].
    split; [exact Hprice|]. repeat split.
  - intros [= <-]. left. repeat split.
Qed.


(** ** [place_order]: what a success means, and when it comes *)


Lemma place_order_loop_lines (coll : list product)
    (items : list OrderToolItem) :
  forall (v : list pyval) (t : num) (v' : list pyval) (t' : num),
    place_order_loop env coll items v t = Completed v' t' ->
    exists lines, v' = (v ++ lines)%list
                  /\ Forall2 (line_of env coll) items lines.
Proof.
  induction items as [|it rest IH]; intros v t v' t' H;
    cbn [place_order_loop] in H.
  - injection H as <- _. exists []. split; [now rewrite app_nil_r|constructor].
  - destruct (find_one_name_regex env _ coll) as [e|[p|]] eqn:Hfind;
      try discriminate.
    unfold price_of in H.
    destruct (float_of_string (p_price p)) as [price|] eqn:Hprice;
      try discriminate.
    destruct (int_as_float (item_quantity it)) as [e|factor] eqn:Hfactor;
      try discriminate.
    destruct (num_add t (NFloat (fl_mul price factor))) as [e|t1];
      try discriminate.
    apply IH in H. destruct H as [lines [-> Hlines]].
    eexists (_ :: lines). split; [now rewrite <- app_assoc|].
    constructor; [|exact Hlines]. now exists p, price, factor.
Qed.

(** X8. What a success of [place_order] means.  When the answer carries
    success=True, exactly one order was appended to the collection; its
    lines stand one for one, in order, for the items asked, each being the
    document the lookup found for the item's name with the item's quantity
    (which converted to a float); and the answer echoes the table number,
    the stored lines and the stored total. *)
Theorem place_order_success (table_number : Z) (items : list OrderToolItem)
    (w : World) (d : dict) (w' : World) :
  place_order env table_number items w = (inr d, w') ->
  dict_get "success" d = Some (PBool true) ->
  exists lines total,
    Forall2 (line_of env (products w)) items lines
    /\ orders w' = (orders w ++ [order_doc env table_number lines total])%list
    /\ products w' = products w
    /\ dict_get "table_number" d = Some (PNum (NInt table_number))
    /\ dict_get "items" d = Some (PList lines)
    /\ dict_get "total" d = Some (PNum total).
Proof.
  unfold place_order.
  destruct (place_order_loop env (products w) items [] (NInt 0))
    as [e|d0|v t] eqn:Hloop.
  - discriminate.
  - intros [= <- <-] Hs.
    destruct (place_order_loop_returned _ _ _ _ _ Hloop) as [it [_ [_ ->]]].
    discriminate.
  - unfold bind, insert_one, ret.
    destruct (insert_one_fault env _); [discriminate|].
    intros [= <- <-] _.
    destruct (place_order_loop_lines _ _ _ _ _ _ Hloop) as [lines [-> Hlines]].
    exists lines, t. repeat split. exact Hlines.
Qed.

(** The running total is the integer 0 or a float, and adding a float to
    it cannot fail. *)
Lemma running_total_add (t : num) (x : flt) :
  t = NInt 0 \/ (exists y, t = NFloat y) ->
  exists y, num_add t (NFloat x) = inr (NFloat y).
Proof.
  intros [->|[y ->]]; now eexists.
Qed.

Lemma place_order_loop_completes (coll : list product)
    (items : list OrderToolItem) :
  Forall (fun it =>
            (exists p price,
               find_one_name_regex env ("^" ++ item_name it ++ "$") coll
                 = inr (Some p)
               /\ float_of_string (p_price p) = Some price)
            /\ Z.abs (item_quantity it) < 2 ^ 1024 - 2 ^ 970) items ->
  forall (v : list pyval) (t : num),
    t = NInt 0 \/ (exists y, t = NFloat y) ->
    exists v' t', place_order_loop env coll items v t = Completed v' t'.
Proof.
  induction 1 as [|it rest [[p [price [Hfind Hprice]]] Hq] _ IH];
    intros v t Ht; cbn [place_order_loop].
  - now exists v, t.
  - rewrite Hfind. unfold price_of. rewrite Hprice.
    unfold int_as_float.
    replace (Z.abs (item_quantity it) <? float_int_bound) with true
      by (symmetry; now apply Z.ltb_lt).
    destruct (running_total_add t
                (fl_mul price (float_of_int (item_quantity it))) Ht)
      as [y ->].
    apply IH. right. now exists y.
Qed.

(** X9. When [place_order] succeeds.  If, for every item asked, the lookup
    finds a document whose stored price [float] accepts and the quantity is
    an integer a float can hold (below [2^1024 - 2^970] in absolute value),
    and the insertion does not fail, the call answers with success=True (an
    empty item list included: it stores an order with no line and
    total 0). *)
Theorem place_order_succeeds (table_number : Z) (items : list OrderToolItem)
    (w : World) :
  Forall (fun it =>
            (exists p price,
               find_one_name_regex env ("^" ++ item_name it ++ "$")
                 (products w) = inr (Some p)
               /\ float_of_string (p_price p) = Some price)
            /\ Z.abs (item_quantity it) < 2 ^ 1024 - 2 ^ 970) items ->
  (forall doc, insert_one_fault env doc = None) ->
  exists d w',
    place_order env table_number items w = (inr d, w')
    /\ dict_get "success" d = Some (PBool true).
Proof.
  intros Hitems Hins. unfold place_order.
  destruct (place_order_loop_completes _ _ Hitems [] (NInt 0)
              (or_introl eq_refl)) as [v [t ->]].
  unfold bind, insert_one, ret. rewrite Hins.
  eexists. eexists. split; reflexivity.
Qed.

(** X10. A call of [place_order] that raises (a rejected lookup, a stored
    price that is no number, a quantity too large for a float, a failed
    insertion) has stored nothing: the
    world is as it was. *)
Theorem place_order_raises_stores_nothing (table_number : Z)
    (items : list OrderToolItem) (w : World) (e : exn) (w' : World) :
  place_order env table_number items w = (inl e, w') -> w' = w.
Proof.
  unfold place_order.
  destruct (place_order_loop env (products w) items [] (NInt 0)) as [e0|d|v t].
  - now intros [= _ <-].
  - discriminate.
  - unfold bind, insert_one, ret.
    destruct (insert_one_fault env _); [now intros [= _ <-]|discriminate].
Qed.

(** ** Substrings *)

Lemma str_in_unfold (needle hay : string) :
  str_in needle hay
  = startswith needle hay
    || match hay with
       | EmptyString => false
       | String _ t => str_in needle t
       end.
Proof. now destruct hay. Qed.

Lemma startswith_split (p s : string) :
  startswith p s = true -> exists r, s = p ++ r.
Proof.
  unfold startswith. revert s.
  induction p as [|c p IH]; intros s H; [now exists s|].
  destruct s as [|c' s]; [discriminate|]. simpl in H.
  destruct (ascii_dec c c') as [<-|]; [|discriminate].
  destruct (IH s H) as [r ->]. now exists r.
Qed.

Lemma append_assoc (a b c : string) : (a ++ b) ++ c = a ++ (b ++ c).
Proof. induction a as [|x a IH]; [reflexivity|]. simpl. now rewrite IH. Qed.

(** An utterance that contains a phrase contains every ending of it. *)
Lemma str_in_suffix (a b hay : string) :
  str_in (a ++ b) hay = true -> str_in b hay = true.
Proof.
  induction hay as [|c t IH]; rewrite str_in_unfold; intros H;
    apply orb_true_iff in H.
  - destruct H as [H|H]; [|discriminate].
    destruct (startswith_split _ _ H) as [r ->].
    rewrite append_assoc. apply str_in_app.
  - destruct H as [H|H].
    + destruct (startswith_split _ _ H) as [r ->].
      rewrite append_assoc. apply str_in_app.
    + rewrite str_in_unfold, (IH H). apply orb_true_r.
Qed.

Lemma confirm_order_mentions_order (q : string) :
  str_in "confirm order" q = true -> mentions order_keywords q = true.
Proof.
  intros H. rewrite mentions_order.
  now rewrite (str_in_suffix "confirm " "order" q H).
Qed.

(** ** The route [ask_agent]: failures *)





(** X12. An [order_summary] that is not JSON fails the request with a 500
    before the agent is dispatched: the detail is the decoder's message,
    and nothing is run, stored or spoken. *)
Theorem undecodable_order_summary_is_a_500
    (question order_summary : string) (w : World) (msg : string) :
  question <> "" ->
  order_summary <> "" ->
  json_loads env order_summary = inl msg ->
  ask_agent env (Some question) None (Some order_summary) w
  = (inl (HTTPException 500 msg), w).
Proof.
  intros Hq Hs Hjson. apply String.eqb_neq in Hq, Hs.
  unfold ask_agent, try_except, bind, transcribe, ret, load_context.
  rewrite Hq, Hs, Hjson. reflexivity.
Qed.

(** X18. Audio takes precedence.  With an audio clip the typed question is
    ignored: the request goes on exactly as a text request for the
    recognized words (the recognition noted in the trace), and a recognition
    error is a 500 with that error's text. *)
Theorem audio_takes_precedence
    (question : option string) (audio : string)
    (order_summary : option string) (w : World) :
  let heard := mkWorld (products w) (orders w)
                 (trace w ++ [EvRecognize audio]) in
  ask_agent env question (Some audio) order_summary w
  = match recognize_google env audio with
    | inr words => ask_agent env (Some words) None order_summary heard
    | inl e => (inl (HTTPException 500 (exn_str e)), heard)
    end.
Proof.
  intros heard. unfold ask_agent, try_except, bind, transcribe, emit, lift, ret.
  cbn [products orders trace]. fold heard.
  now destruct (recognize_google env audio).
Qed.

(** ** The route [ask_agent]: the normalizer end to end *)

(** X19. The normalizer writes on "confirm order" only.  For an utterance
    that does not contain "confirm order", the orders collection after the
    request is what the agent run left, whatever the run answered or
    raised. *)
Theorem respond_writes_only_on_confirm
    (question : string) (context : pyval) (w : World)
    (result : exn + pyval) (orders' : list pyval) :
  str_in "confirm order" (lower question) = false ->
  Runner_run env question context (products w) (orders w)
    = (result, orders') ->
  orders (snd (respond env question context w)) = orders'.
Proof.
  intros Hq Hrun. unfold respond, bind, run_agent. rewrite Hrun.
  destruct result as [e|final_output]; [reflexivity|].
  unfold confirm_order. rewrite Hq. unfold ret, speak.
  destruct (truthy _); [|reflexivity].
  unfold bind, emit, lift, ret.
  now destruct (gTTS_save env _).
Qed.

(** X13. A free-text answer goes through verbatim.  When the agent answers
    with a non-empty string that does not decode to a JSON object, and the
    utterance mentions no menu or order keyword, the response is that
    string as the message (as the agent wrote it, fence and blanks
    included), every other field at its default, plus the reference to the
    speech synthesized from it. *)
Theorem free_text_answer
    (question : string) (context : pyval) (w : World)
    (text : string) (orders' : list pyval) (file : string) :
  text <> "" ->
  (forall d, json_loads env (clean_output text) <> inr (PDict d)) ->
  mentions menu_keywords (lower question) = false ->
  mentions order_keywords (lower question) = false ->
  Runner_run env question context (products w) (orders w)
    = (inr (PStr text), orders') ->
  gTTS_save env (PStr text) = inr file ->
  respond env question context w
  = (inr [ ("message", PStr text);
           ("redirect", PBool false);
           ("redirect_url", PNone);
           ("table_number", PNone);
           ("items", PList []);
           ("total", PNum (NInt 0));
           ("audio_url", PStr ("/agent-audio?file=" ++ file)) ],
     mkWorld (products w) orders'
       (trace w ++ [EvRun question context] ++ [EvSpeak (PStr text)])).
Proof.
  intros Htext Hjson Hmenu Horder Hrun Htts.
  assert (Hconfirm : str_in "confirm order" (lower question) = false).
  { destruct (str_in "confirm order" (lower question)) eqn:E; [|reflexivity].
    apply confirm_order_mentions_order in E. congruence. }
  assert (Hnorm : normalize_output env (PStr text)
                  = dict_set "message" (PStr text) default_response).
  { unfold normalize_output.
    destruct (json_loads env (clean_output text)) as [msg|[| | | | |d|]];
      try reflexivity.
    now destruct (Hjson d). }
  unfold respond, bind. rewrite (run_agent_returns _ _ _ _ _ Hrun), Hnorm.
  unfold force_redirect. rewrite <- mentions_menu, <- mentions_order.
  rewrite Hmenu, Horder. cbn [andb].
  unfold confirm_order. rewrite Hconfirm. unfold ret.
  rewrite (speak_says _ _ text file); [|reflexivity|exact Htext|exact Htts].
  cbn [products orders trace]. now rewrite <- app_assoc.
Qed.

(** X22. A confirmation that cannot be honoured still opens the order
    summary.  Every utterance with "confirm order" mentions the keyword
    "order"; so when the context carries no usable order, the handler set no
    redirect and the utterance mentions no menu keyword, the response is the
    clarification text together with redirect=True to "/order_summary". *)
Theorem clarification_redirects_to_summary
    (question : string) (context : pyval) (w : World)
    (final_output : pyval) (orders' : list pyval) (file : string) :
  str_in "confirm order" (lower question) = true ->
  mentions menu_keywords (lower question) = false ->
  lacks_usable_order context ->
  truthy (item "redirect" (normalize_output env final_output)) = false ->
  Runner_run env question context (products w) (orders w)
    = (inr final_output, orders') ->
  gTTS_save env (PStr clarification_text) = inr file ->
  exists response w',
    respond env question context w = (inr response, w')
    /\ dict_get "message" response = Some (PStr clarification_text)
    /\ dict_get "redirect" response = Some (PBool true)
    /\ dict_get "redirect_url" response = Some (PStr "/order_summary").
Proof.
  intros Hq Hmenu Hlack Hflag Hrun Htts.
  set (r0 := force_redirect (lower question) (normalize_output env final_output)).
  set (r1 := dict_set "message" (PStr clarification_text) r0).
  assert (Hmsg : dict_get "message" r1 = Some (PStr clarification_text))
    by apply dict_get_set_same.
  assert (Hr0 : dict_get "redirect" r0 = Some (PBool true)
                /\ dict_get "redirect_url" r0 = Some (PStr "/order_summary")).
  { unfold r0, force_redirect. rewrite <- mentions_menu, <- mentions_order.
    rewrite Hmenu, (confirm_order_mentions_order _ Hq), Hflag. cbn [andb negb].
    rewrite !dict_get_forced. now split. }
  eexists. eexists. split.
  { unfold respond, bind. rewrite (run_agent_returns _ _ _ _ _ Hrun).
    fold r0. rewrite (confirm_order_unusable _ _ _ _ Hq Hlack). fold r1.
    rewrite (speak_says r1 _ _ file Hmsg); [reflexivity|discriminate|exact Htts]. }
  destruct Hr0 as [H1 H2]. unfold r1. split; [|split].
  - rewrite dict_get_set_other by discriminate. apply dict_get_set_same.
  - now rewrite !dict_get_set_other by discriminate.
  - now rewrite !dict_get_set_other by discriminate.
Qed.

(** ** The confirm-order safety net: failures *)

(** X15. A persistence failure is caught.  With "confirm order" and a usable
    context, an insertion that raises is turned into the fixed failure
    message; nothing is stored and no other field of the response changes. *)
Theorem confirm_order_insert_failure
    (q : string) (c response_data : dict) (w : World) (e : exn) :
  str_in "confirm order" q = true ->
  truthy (dict_get_default "table_number" PNone c) = true ->
  truthy (dict_get_default "items" PNone c) = true ->
  insert_one_fault env (PDict (saved_order env c)) = Some e ->
  confirm_order env q (PDict c) response_data w
  = (inr (dict_set "message" (PStr " Failed to confirm order. Please try again.")
            response_data), w).
Proof.
  intros Hq Htn Hitems Hfault.
  unfold confirm_order. rewrite Hq.
  unfold try_except, bind, lift, context_usable.
  rewrite (truthy_get_nonempty _ _ Htn).
  unfold py_get. rewrite Htn, Hitems.
  unfold insert_one. now rewrite Hfault.
Qed.

(** X16. A context that is JSON but no object.  With "confirm order", a
    context that is a non-empty array or string, a non-zero number or
    [true] has no [get]; the error is caught and the response carries the
    fixed failure message (not the clarification), with nothing stored. *)
Theorem confirm_order_non_object_context
    (q : string) (context : pyval) (response_data : dict) (w : World) :
  str_in "confirm order" q = true ->
  truthy context = true ->
  (forall c, context <> PDict c) ->
  confirm_order env q context response_data w
  = (inr (dict_set "message" (PStr " Failed to confirm order. Please try again.")
            response_data), w).
Proof.
  intros Hq Htruthy Hobj.
  unfold confirm_order. rewrite Hq.
  unfold try_except, bind, lift, context_usable. rewrite Htruthy.
  destruct context; try reflexivity. now destruct (Hobj d).
Qed.

(** ** The forced redirect, again *)

(** X17. The redirect inference is idempotent: applied to its own result it
    changes nothing. *)
Theorem force_redirect_idempotent (q : string) (response_data : dict) :
  force_redirect q (force_redirect q response_data)
  = force_redirect q response_data.
Proof.
  assert (Hset : forall url r,
            truthy (item "redirect"
                      (dict_set "redirect_url" (PStr url)
                         (dict_set "redirect" (PBool true) r))) = true).
  { intros url r. unfold item, dict_get_default.
    now rewrite dict_get_forced. }
  destruct ((str_in "menu" q || str_in "show menu" q || str_in "mujhe menu" q)
            && negb (truthy (item "redirect" response_data))) eqn:E1.
  - replace (force_redirect q response_data)
      with (dict_set "redirect_url" (PStr "/menu")
              (dict_set "redirect" (PBool true) response_data))
      by (unfold force_redirect; now rewrite E1).
    unfold force_redirect. rewrite Hset. cbn [negb]. now rewrite !andb_false_r.
  - destruct ((str_in "order" q || str_in "order confirmation" q
               || str_in "my order" q || str_in "mera order" q)
              && negb (truthy (item "redirect" response_data))) eqn:E2.
    + replace (force_redirect q response_data)
        with (dict_set "redirect_url" (PStr "/order_summary")
                (dict_set "redirect" (PBool true) response_data))
        by (unfold force_redirect; now rewrite E1, E2).
      unfold force_redirect. rewrite Hset. cbn [negb].
      now rewrite !andb_false_r.
    + replace (force_redirect q response_data) with response_data
        by (unfold force_redirect; now rewrite E1, E2).
      unfold force_redirect. now rewrite E1, E2.
Qed.

(** ** The response always has its canonical fields *)

Lemma dict_in_set (k k' : string) (v : pyval) (d : dict) :
  dict_in k d = true -> dict_in k (dict_set k' v d) = true.
Proof.
  unfold dict_in. rewrite dict_get_set.
  now destruct (String.eqb k' k).
Qed.

Lemma dict_in_copy_keys (keys : list string) (source : dict) (k : string) :
  forall d, dict_in k d = true -> dict_in k (copy_keys keys source d) = true.
Proof.
  induction keys as [|key rest IH]; intros d H; [exact H|].
  cbn [copy_keys]. destruct (dict_get key source); apply IH; [|exact H].
  now apply dict_in_set.
Qed.

Lemma default_response_keys (k : string) :
  In k canonical_keys -> dict_in k default_response = true.
Proof.
  intros [<-|[<-|[<-|[<-|[<-|[<-|[]]]]]]]; reflexivity.
Qed.

Lemma normalize_output_keys (final_output : pyval) (k : string) :
  In k canonical_keys -> dict_in k (normalize_output env final_output) = true.
Proof.
  intros Hk. apply default_response_keys in Hk. unfold normalize_output.
  destruct final_output; try exact Hk.
  - destruct (json_loads env (clean_output s)) as [msg|[| | | | |d|]];
      try (now apply dict_in_set).
    now apply dict_in_copy_keys.
  - now apply dict_in_copy_keys.
Qed.

Lemma force_redirect_keys (q : string) (r : dict) (k : string) :
  dict_in k r = true -> dict_in k (force_redirect q r) = true.
Proof.
  intros H. unfold force_redirect.
  destruct (_ && _); [now repeat apply dict_in_set|].
  destruct (_ && _); [now repeat apply dict_in_set|exact H].
Qed.

Lemma confirm_order_keys (q : string) (context : pyval) (r : dict)
    (w : World) (r' : dict) (w' : World) (k : string) :
  confirm_order env q context r w = (inr r', w') ->
  dict_in k r = true -> dict_in k r' = true.
Proof.
  unfold confirm_order. intros Hrun H.
  destruct (str_in "confirm order" q); [|now injection Hrun as <- _].
  unfold try_except, bind, lift, ret in Hrun.
  destruct (context_usable context) as [e|[|]].
  - injection Hrun as <- _. now apply dict_in_set.
  - destruct context; try (injection Hrun as <- _; now apply dict_in_set).
    unfold insert_one in Hrun.
    destruct (insert_one_fault env _); injection Hrun as <- _.
    + now apply dict_in_set.
    + now repeat apply dict_in_set.
  - injection Hrun as <- _. now apply dict_in_set.
Qed.

(** X14. Every response of the normalizer holds the six canonical fields
    message, redirect, redirect_url, table_number, items and total, whatever
    the agent answered and whichever steps fired (so reading
    [response_data["redirect"]] or [response_data["message"]] never fails). *)
Theorem response_has_canonical_keys
    (question : string) (context : pyval) (w : World)
    (response : dict) (w' : World) (k : string) :
  respond env question context w = (inr response, w') ->
  In k canonical_keys ->
  dict_in k response = true.
Proof.
  intros Hrun Hk. unfold respond, bind in Hrun.
  destruct (run_agent env question context w) as [[e|final_output] w1];
    [discriminate|].
  set (r0 := force_redirect (lower question)
               (normalize_output env final_output)) in Hrun.
  assert (H0 : dict_in k r0 = true)
    by (apply force_redirect_keys; now apply normalize_output_keys).
  destruct (confirm_order env (lower question) context r0 w1)
    as [[e|r1] w2] eqn:Hconfirm; [discriminate|].
  assert (H1 := confirm_order_keys _ _ _ _ _ _ k Hconfirm H0).
  unfold speak in Hrun.
  destruct (truthy (item "message" r1)).
  - unfold bind, emit, lift, ret in Hrun.
    destruct (gTTS_save env _); [discriminate|].
    injection Hrun as <- _. now apply dict_in_set.
  - injection Hrun as <- _. exact H1.
Qed.

(** ** From the order summary to the stored order *)

(** X20. An added item can be confirmed.  Take an answer of
    [add_to_order_tool] that found its product (it redirects), for a table
    number other than 0, and send it back as the context of a "confirm
    order" utterance.  If the insertion does not fail, the safety net stores
    one order with that table number, the answer's single line and, as
    [totalAmount], the subtotal of that line.  (For table 0 the same answer
    is no usable context: the number 0 is false.) *)
Theorem added_item_can_be_confirmed
    (products_data : list (string * list product))
    (table_number : Z) (product_name : string) (quantity : Z) (d : dict)
    (q : string) (response_data : dict) (w : World) :
  add_to_order_tool products_data table_number product_name quantity = inr d ->
  dict_get "redirect" d = Some (PBool true) ->
  str_in "confirm order" q = true ->
  (table_number <> 0 ->
   insert_one_fault env (PDict (saved_order env d)) = None ->
   exists line subtotal,
     line_subtotal line = Some (NFloat subtotal)
     /\ orders (snd (confirm_order env q (PDict d) response_data w))
        = (orders w ++ [PDict (saved_order env d)])%list
     /\ dict_get "tableNumber" (saved_order env d)
        = Some (PNum (NInt table_number))
     /\ dict_get "items" (saved_order env d) = Some (PList [line])
     /\ dict_get "totalAmount" (saved_order env d)
        = Some (PNum (NFloat subtotal)))
  /\ (table_number = 0 ->
      confirm_order env q (PDict d) response_data w
      = (inr (dict_set "message" (PStr clarification_text) response_data), w)).
Proof.
  unfold add_to_order_tool.
  destruct (resolve product_name (flatten_products products_data))
    as [e|[[p|] scored]]; [discriminate| |intros [= <-]; discriminate].
  destruct (price_of p) as [e|price]; [discriminate|].
  destruct (int_as_float quantity) as [e|factor]; [discriminate|].
  intros [= <-] _ Hq. split.
  - intros Htn Hfault.
    eexists. exists (fl_mul price factor).
    split; [|split; [|repeat split]].
    + reflexivity.
    + rewrite confirm_order_usable; try assumption; try reflexivity.
      unfold dict_get_default. cbn [dict_get]. cbn. apply negb_true_iff.
      now apply Z.eqb_neq.
  - intros ->. apply confirm_order_unusable; [exact Hq|].
    right. eexists. split; [reflexivity|]. now left.
Qed.

(** ** Adding to the catalog *)

(** X21. A product that was added is listed and can be ordered.  When
    [add_product] answers, the upload and the insertion succeeded and the
    collection gained exactly the new document, last.  [/products] then
    lists it as the last entry of its category, and [add_to_order_tool]'s
    resolver, asked for its name, answers with a product of that name (case
    apart) without scoring. *)
Theorem add_product_is_listed
    (uploaded inserted : exn + string)
    (name price category description : string)
    (w : World) (d : dict) (w' : World) :
  add_product uploaded inserted name price category description w
    = (inr d, w') ->
  exists image_url new_id,
    uploaded = inr image_url
    /\ inserted = inr new_id
    /\ products w'
       = (products w
            ++ [ {| p_id := new_id; p_name := name; p_price := price;
                    p_category := category; p_description := description;
                    p_image := image_url |} ])%list
    /\ orders w' = orders w
    /\ In (category,
           (filter (in_category category) (products w)
              ++ [ {| p_id := new_id; p_name := name; p_price := price;
                      p_category := category; p_description := description;
                      p_image := image_url |} ])%list)
          (get_all_products (products w'))
    /\ exists found,
         resolve name (flatten_products (get_all_products (products w')))
           = inr (Some found, [])
         /\ lower (p_name found) = lower name.
Proof.
  unfold add_product, bind, lift, upload_image_to_cloudinary.
  destruct uploaded as [e|image_url]; [discriminate|].
  destruct inserted as [e|new_id]; [discriminate|].
  intros [= <- <-]. exists image_url, new_id.
  set (p := {| p_id := new_id; p_name := name; p_price := price;
               p_category := category; p_description := description;
               p_image := image_url |}).
  cbn [products orders].
  split; [reflexivity|]. split; [reflexivity|]. split; [reflexivity|].
  split; [reflexivity|].
  destruct (get_all_products_invariant (products w ++ [p]))
    as [_ [Hkeys Hgroups]].
  assert (Hin : In p (products w ++ [p])) by (apply in_or_app; right; now left).
  split.
  - specialize (Hkeys p Hin). apply in_map_iff in Hkeys.
    destruct Hkeys as [[c l] [Hc Hcl]]. cbn [fst] in Hc.
    change (p_category p) with category in Hc. subst c.
    destruct (Hgroups _ _ Hcl) as [Hl _].
    rewrite filter_app in Hl. cbn [filter] in Hl.
    unfold in_category at 2 in Hl. change (p_category p) with category in Hl.
    rewrite String.eqb_refl in Hl. now rewrite <- Hl.
  - assert (Hflat : In p (flatten_products (get_all_products (products w ++ [p])))).
    { apply (Permutation_in p (Permutation_sym
               (flatten_get_all_products_perm (products w ++ [p])))).
      exact Hin. }
    unfold resolve, exact_match.
    destruct (find _ (flatten_products _)) as [found|] eqn:Hfind.
    + exists found. split; [reflexivity|].
      apply find_some in Hfind. now apply String.eqb_eq.
    + exfalso. apply (find_none _ _ Hfind) in Hflat.
      change (p_name p) with name in Hflat.
      now rewrite String.eqb_refl in Hflat.
Qed.

End Properties.

(* ================================================================== *)
(** * The statements at work on the example data *)


(** The context [[]]: a JSON array, empty, hence false. *)
Lemma confirm_order_without_usable_order_witness :
  exists (response : dict) (w' : World),
    respond Demo.env "ok confirm order" (PList []) Demo.world
      = (inr response, w')
    /\ dict_get "message" response
       = Some (PStr " Please specify both table number and items to confirm your order.")
    /\ orders w' = [].
Proof.
  destruct (confirm_order_without_usable_order Demo.env "ok confirm order"
              (PList []) Demo.world (PStr "Sure.") [] eq_refl eq_refl)
    as [_ Hmessage].
  apply (Hmessage (or_introl eq_refl) "tmpk3v9x1.mp3" eq_refl).
Defined.

(** C7 as the claim words it fails: the context [[1]] carries no table
    number and no items, yet the answer is the failure text, not the
    clarification. *)
Lemma non_object_context_gets_failure_text :
  context_usable (PList [PNum (@NInt QFloat 1)]) <> inr true
  /\ exists response,
       fst (respond Demo.env "confirm order" (PList [PNum (NInt 1)])
              Demo.world) = inr response
       /\ dict_get "message" response
          = Some (PStr " Failed to confirm order. Please try again.")
       /\ dict_get "message" response
          <> Some (PStr " Please specify both table number and items to confirm your order.").
Proof.
  split; [discriminate|].
  eexists. split; [reflexivity|]. split; [reflexivity|discriminate].
Qed.

(** C10 as the claim words it fails: the detail of the 500 is not the
    message of the 400 alone. *)
Lemma no_question_detail_is_not_the_message :
  exists detail,
    fst (ask_agent Demo.env None None None Demo.world)
      = inl (HTTPException 500 detail)
    /\ detail <> "No question or audio provided.".
Proof. eexists. split; [reflexivity|discriminate]. Qed.

(** [place_order] at work: two lines, 2 x 10 and 2 x 4.5, stored with the
    total 29. *)
Example place_order_two_lines :
  exists doc,
    orders (snd (place_order Demo.env 3
                   [ {| item_name := "pizza"; item_quantity := 2 |};
                     {| item_name := "chicken soup"; item_quantity := 2 |} ]
                   Demo.world)) = [PDict doc]
    /\ dict_get "totalAmount" doc = Some (PNum (@NFloat QFloat 29%Q))
    /\ total_is_sum (PDict doc).
Proof.
  eexists. split; [reflexivity|]. split; [reflexivity|].
  eexists. eexists. exists [@NFloat QFloat 20%Q; @NFloat QFloat 9%Q].
  split; [reflexivity|]. split; [reflexivity|]. split; [reflexivity|].
  eexists. split; reflexivity.
Qed.

(** C2 as the claim words it fails on the safety net: the context whose
    total is 5 over one line of subtotal 20 is stored as it stands. *)
Lemma safety_net_total_is_not_the_sum :
  exists doc,
    orders (snd (respond Demo.env "confirm order" Demo.skewed Demo.world))
      = [doc]
    /\ ~ total_is_sum doc.
Proof.
  eexists. split; [reflexivity|].
  intros [d [lines [subtotals [Hd [Hitems [Hsub Htotal]]]]]].
  injection Hd as <-.
  injection Hitems as <-.
  destruct subtotals as [|s [|s' rest]]; try discriminate.
  injection Hsub as <-.
  destruct Htotal as [total [Hsum Htotal]].
  injection Hsum as <-. discriminate.
Qed.

(** "zinger burgr" has no exact match; "Zinger Burger" scores highest, above
    the threshold, after all three names were scored. *)
Lemma resolve_fuzzy_match_witness :
  exists pre post,
    Demo.all_products = (pre ++ Demo.burger :: post)%list
    /\ (forall p, In p pre ->
          (RapidFuzz.ratio "zinger burgr" (p_name p)
           < RapidFuzz.ratio "zinger burgr" "Zinger Burger")%Q)
    /\ (forall p, In p post ->
          (RapidFuzz.ratio "zinger burgr" (p_name p)
           <= RapidFuzz.ratio "zinger burgr" "Zinger Burger")%Q)
    /\ resolve "zinger burgr" Demo.all_products
       = inr (Some Demo.burger, ["Pizza"; "Zinger Burger"; "Chicken Soup"]).
Proof.
  assert (Hnone : forall p, In p Demo.all_products ->
                    lower (p_name p) <> lower "zinger burgr").
  { intros p [<-|[<-|[<-|[]]]]; discriminate. }
  destruct (resolve_fuzzy_match "zinger burgr" Demo.all_products Hnone)
    as [_ [_ Hsome]].
  destruct Hsome as [pre [best [post [Hall [Hpre [Hpost [Hge Hlt]]]]]]];
    [discriminate|].
  assert (Hrun : resolve "zinger burgr" Demo.all_products
                 = inr (Some Demo.burger,
                        ["Pizza"; "Zinger Burger"; "Chicken Soup"]))
    by reflexivity.
  destruct (Qlt_le_dec (RapidFuzz.ratio "zinger burgr" (p_name best)) 70)
    as [Hlow|Hhigh].
  - rewrite (Hlt Hlow) in Hrun. discriminate.
  - rewrite (Hge Hhigh) in Hrun. injection Hrun as Hbest. subst best.
    exists pre, post. repeat split; assumption || reflexivity.
Defined.

(** "PIZZA" resolves to the pizza with no score computed. *)
Lemma resolve_exact_match_witness :
  exists p,
    resolve "PIZZA" Demo.all_products = inr (Some p, [])
    /\ lower (p_name p) = "pizza".
Proof.
  destruct (resolve_exact_match "PIZZA" Demo.all_products)
    as [pre [p [post [_ [Hname [_ Hres]]]]]].
  - exists Demo.pizza. split; [now left|reflexivity].
  - exists p. split; [exact Hres|exact Hname].
Defined.

(** Nothing on the menu resembles "sushi". *)
Lemma add_to_order_not_found_witness :
  exists d,
    add_to_order_tool (get_all_products Demo.catalog) 2 "sushi" 1 = inr d
    /\ dict_get "message" d
       = Some (PStr " Sorry, sushi is not available in our menu.")
    /\ dict_get "items" d = Some (PList [])
    /\ dict_get "total" d = Some (PNum (NInt 0)).
Proof.
  destruct (add_to_order_not_found (get_all_products Demo.catalog) 2 "sushi" 1)
    as [d [Hd [Hmsg [_ [Hitems Htotal]]]]].
  - intros p scored H. vm_compute in H. discriminate.
  - exists d. repeat split; assumption.
Defined.

(** All or nothing, on the lookup the code performs: one item of the call
    is not found, nothing is stored, and the message names it. *)
Lemma place_order_unfound_witness :
  orders (snd (place_order Demo.env 3
                 [ {| item_name := "pizza"; item_quantity := 2 |};
                   {| item_name := "soup"; item_quantity := 1 |} ]
                 Demo.world)) = []
  /\ fst (place_order Demo.env 3
            [ {| item_name := "pizza"; item_quantity := 2 |};
              {| item_name := "soup"; item_quantity := 1 |} ]
            Demo.world)
     = inr [ ("message", PStr " Item 'soup' not found in menu.") ].
Proof.
  destruct (place_order_unfound Demo.env 3
              [ {| item_name := "pizza"; item_quantity := 2 |};
                {| item_name := "soup"; item_quantity := 1 |} ]
              Demo.world {| item_name := "soup"; item_quantity := 1 |})
    as [Horders _].
  - right. now left.
  - reflexivity.
  - split; [exact Horders|reflexivity].
Defined.

(** C6 at an input the claim covers.  No product is called ".*" or "p.zza",
    case apart, yet [place_order] finds a product for each of the two names
    and stores an order of two pizzas. *)
Theorem place_order_pattern_names_are_stored :
  (forall p, In p Demo.catalog ->
     lower (p_name p) <> lower ".*" /\ lower (p_name p) <> lower "p.zza")
  /\ exists doc,
       orders (snd (place_order Demo.env 3
                      [ {| item_name := ".*"; item_quantity := 1 |};
                        {| item_name := "p.zza"; item_quantity := 1 |} ]
                      Demo.world)) = [PDict doc]
       /\ dict_get "items" doc
          = Some (PList
                    [ validated_item Demo.pizza 1 (10%Q : @flt QFloat) 10%Q;
                      validated_item Demo.pizza 1 (10%Q : @flt QFloat) 10%Q ]).
Proof.
  split.
  - intros p [<-|[<-|[<-|[]]]]; split; discriminate.
  - eexists. split; reflexivity.
Qed.

(** The utterance "mujhe menu dikhao", answered in free text. *)
Lemma respond_keeps_forced_redirect_witness :
  exists response,
    fst (respond Demo.env "mujhe menu dikhao" PNone Demo.world) = inr response
    /\ dict_get "redirect" response = Some (PBool true)
    /\ dict_get "redirect_url" response = Some (PStr "/menu").
Proof.
  destruct (respond Demo.env "mujhe menu dikhao" PNone Demo.world)
    as [[e|response] w'] eqn:Hres; [discriminate|].
  exists response. split; [reflexivity|].
  exact (respond_keeps_forced_redirect Demo.env "mujhe menu dikhao" PNone
           Demo.world (PStr "Sure.") [] response w'
           eq_refl eq_refl Hres).
Defined.

(** The whole route on the confirm-order example: the form field is decoded,
    the order is stored and echoed. *)
Example ask_agent_confirms_summary :
  exists response w',
    ask_agent Demo.env (Some "Confirm order") None (Some Demo.summary_text)
      Demo.world = (inr response, w')
    /\ orders w' = [PDict (saved_order Demo.env
                             [ ("table_number", PStr "5");
                               ("items", PList [ PDict [ ("name", PStr "Pizza");
                                                         ("quantity", PNum (NInt 2));
                                                         ("price", PNum (NInt 10)) ] ]);
                               ("total", PNum (NInt 20)) ])]
    /\ dict_get "table_number" response = Some (PStr "5")
    /\ dict_get "audio_url" response
       = Some (PStr "/agent-audio?file=tmpk3v9x1.mp3").
Proof. eexists. eexists. repeat split. Qed.

(** A context that is a JSON array is answered with the failure text. *)
Example array_context_fails_to_confirm :
  exists response,
    fst (respond Demo.env "confirm order" (PList [PNum (NInt 1)]) Demo.world)
      = inr response
    /\ dict_get "message" response
       = Some (PStr " Failed to confirm order. Please try again.")
    /\ orders (snd (respond Demo.env "confirm order" (PList [PNum (NInt 1)])
                      Demo.world)) = [].
Proof. eexists. repeat split. Qed.

(** The redirect inference on the specification's example: a free-text
    answer to "mujhe menu dikhao" is sent to the menu view. *)
Example menu_request_is_redirected :
  exists response,
    fst (ask_agent Demo.env (Some "mujhe menu dikhao") None None Demo.world)
      = inr response
    /\ dict_get "redirect" response = Some (PBool true)
    /\ dict_get "redirect_url" response = Some (PStr "/menu").
Proof. eexists. repeat split. Qed.

(** The scan reads the utterance only: a handler message that speaks of the
    menu redirects nothing when the utterance has no keyword. *)
Example handler_text_is_not_scanned :
  force_redirect (lower "Hello")
    (normalize_output Demo.env
       (PDict [ ("message", PStr "Our menu and your order are ready.") ]))
  = [ ("message", PStr "Our menu and your order are ready.");
      ("redirect", PBool false);
      ("redirect_url", PNone);
      ("table_number", PNone);
      ("items", PList []);
      ("total", PNum (NInt 0)) ].
Proof. reflexivity. Qed.

(** A string answer that wraps its JSON in a fence is unwrapped, decoded
    and copied like a structured one. *)
Example fenced_json_is_unwrapped :
  normalize_output Demo.env
    (PStr ("```json" ++ newline ++ Demo.no_items_text ++ newline ++ "```"))
  = [ ("message", PStr "");
      ("redirect", PBool false);
      ("redirect_url", PNone);
      ("table_number", PStr "5");
      ("items", PList []);
      ("total", PNum (NInt 0)) ].
Proof. reflexivity. Qed.

(** The field copy on a handler output with one recognized and one
    unrecognized field. *)
Example copy_drops_unrecognized :
  normalize_output Demo.env
    (PDict [ ("message", PStr "Hi"); ("audio_url", PStr "/x.mp3") ])
  = [ ("message", PStr "Hi");
      ("redirect", PBool false);
      ("redirect_url", PNone);
      ("table_number", PNone);
      ("items", PList []);
      ("total", PNum (NInt 0)) ].
Proof. reflexivity. Qed.

(* ================================================================== *)
(** * The further properties at work on the example data *)

(** "zinger burgr" resolves to the burger by its score. *)
Lemma resolve_sound_witness :
  In Demo.burger Demo.all_products
  /\ (70 <= RapidFuzz.ratio "zinger burgr" "Zinger Burger")%Q.
Proof.
  destruct (resolve_sound "zinger burgr" Demo.all_products Demo.burger
              ["Pizza"; "Zinger Burger"; "Chicken Soup"] eq_refl)
    as [Hin [[Hl _]|[_ Hs]]].
  - discriminate Hl.
  - split; assumption.
Defined.

(** Two pizzas for table 5. *)
Lemma add_to_order_tool_answers_witness :
  exists d p price factor,
    add_to_order_tool (get_all_products Demo.catalog) 5 "pizza" 2 = inr d
    /\ In p Demo.all_products
    /\ float_of_string (p_price p) = Some price
    /\ int_as_float 2 = inr factor
    /\ dict_get "total" d = Some (PNum (NFloat (fl_mul price factor))).
Proof.
  destruct (add_to_order_tool (get_all_products Demo.catalog) 5 "pizza" 2)
    as [e|d] eqn:Hrun; [discriminate|].
  destruct (add_to_order_tool_answers _ _ _ _ _ Hrun)
    as [[Hitems _]|[p [price [factor [Hin [Hprice [Hf [_ [Htotal _]]]]]]]]].
  - injection Hrun as <-. discriminate Hitems.
  - exists d, p, price, factor. repeat split; assumption.
Defined.


(** Two pizzas, stored and echoed. *)
Lemma place_order_success_witness :
  exists lines total,
    Forall2 (line_of Demo.env Demo.catalog)
      [ {| item_name := "pizza"; item_quantity := 2 |} ] lines
    /\ orders (snd (place_order Demo.env 3
                      [ {| item_name := "pizza"; item_quantity := 2 |} ]
                      Demo.world))
       = [order_doc Demo.env 3 lines total].
Proof.
  destruct (place_order Demo.env 3
              [ {| item_name := "pizza"; item_quantity := 2 |} ] Demo.world)
    as [[e|d] w'] eqn:Hrun; [discriminate|].
  assert (Hsuccess : dict_get "success" d = Some (PBool true))
    by (injection Hrun as <- _; reflexivity).
  destruct (place_order_success Demo.env _ _ _ _ _ Hrun Hsuccess)
    as [lines [total [Hlines [Horders _]]]].
  exists lines, total. split; [exact Hlines|exact Horders].
Defined.

Lemma place_order_succeeds_witness :
  exists d w',
    place_order Demo.env 3
      [ {| item_name := "PIZZA"; item_quantity := 1 |} ] Demo.world
    = (inr d, w')
    /\ dict_get "success" d = Some (PBool true).
Proof.
  apply (place_order_succeeds Demo.env).
  - constructor; [|constructor].
    split; [|reflexivity].
    exists Demo.pizza, (10%Q : @flt QFloat).
    split; reflexivity.
  - reflexivity.
Defined.

(** The name "(" is no regular expression: the lookup is rejected. *)
Lemma place_order_raises_stores_nothing_witness :
  snd (place_order Demo.env 3
         [ {| item_name := "("; item_quantity := 1 |} ] Demo.world)
  = Demo.world.
Proof.
  destruct (place_order Demo.env 3
              [ {| item_name := "("; item_quantity := 1 |} ] Demo.world)
    as [[e|d] w'] eqn:Hrun; [|discriminate].
  exact (place_order_raises_stores_nothing Demo.env _ _ _ _ _ Hrun).
Defined.


Lemma undecodable_order_summary_is_a_500_witness :
  ask_agent Demo.env (Some "confirm order") None (Some "oops") Demo.world
  = (inl (HTTPException 500 "Expecting value: line 1 column 1 (char 0)"),
     Demo.world).
Proof.
  apply (undecodable_order_summary_is_a_500 Demo.env);
    [discriminate|discriminate|reflexivity].
Defined.

Lemma respond_writes_only_on_confirm_witness :
  orders (snd (respond Demo.env "hello" Demo.summary Demo.world)) = [].
Proof.
  exact (respond_writes_only_on_confirm Demo.env "hello" Demo.summary
           Demo.world (inr (PStr "Sure.")) [] eq_refl eq_refl).
Defined.

Lemma free_text_answer_witness :
  fst (respond Demo.env "hello" PNone Demo.world)
  = inr [ ("message", PStr "Sure.");
          ("redirect", PBool false);
          ("redirect_url", PNone);
          ("table_number", PNone);
          ("items", PList []);
          ("total", PNum (NInt 0));
          ("audio_url", PStr "/agent-audio?file=tmpk3v9x1.mp3") ].
Proof.
  rewrite (free_text_answer Demo.env "hello" PNone Demo.world "Sure." []
             "tmpk3v9x1.mp3").
  - reflexivity.
  - discriminate.
  - intros d. discriminate.
  - reflexivity.
  - reflexivity.
  - reflexivity.
  - reflexivity.
Defined.

Lemma clarification_redirects_to_summary_witness :
  exists response w',
    respond Demo.env "confirm order" PNone Demo.world = (inr response, w')
    /\ dict_get "message" response = Some (PStr clarification_text)
    /\ dict_get "redirect" response = Some (PBool true)
    /\ dict_get "redirect_url" response = Some (PStr "/order_summary").
Proof.
  apply (clarification_redirects_to_summary Demo.env "confirm order" PNone
           Demo.world (PStr "Sure.") [] "tmpk3v9x1.mp3");
    try reflexivity.
  now left.
Defined.

Lemma response_has_canonical_keys_witness :
  exists response,
    fst (respond Demo.env "show me the menu" PNone Demo.world) = inr response
    /\ dict_in "redirect_url" response = true.
Proof.
  destruct (respond Demo.env "show me the menu" PNone Demo.world)
    as [[e|response] w'] eqn:Hrun; [discriminate|].
  exists response. split; [reflexivity|].
  apply (response_has_canonical_keys Demo.env _ _ _ _ _ _ Hrun).
  right. right. now left.
Defined.

(** The database refuses the write: the failure text, nothing stored. *)
Lemma confirm_order_insert_failure_witness :
  confirm_order Faults.env "confirm order" Demo.summary default_response
    Demo.world
  = (inr (dict_set "message"
            (PStr " Failed to confirm order. Please try again.")
            default_response), Demo.world).
Proof.
  apply (confirm_order_insert_failure Faults.env "confirm order" _ _ _
           (PyError "ServerSelectionTimeoutError" "No servers found yet"));
    reflexivity.
Defined.

(** The context [[1]]. *)
Lemma confirm_order_non_object_context_witness :
  confirm_order Demo.env "confirm order" (PList [PNum (NInt 1)])
    default_response Demo.world
  = (inr (dict_set "message"
            (PStr " Failed to confirm order. Please try again.")
            default_response), Demo.world).
Proof.
  apply (confirm_order_non_object_context Demo.env);
    [reflexivity|reflexivity|discriminate].
Defined.

(** Two pizzas added for table 5, then confirmed. *)
Lemma added_item_can_be_confirmed_witness :
  exists d line subtotal,
    add_to_order_tool (get_all_products Demo.catalog) 5 "pizza" 2 = inr d
    /\ line_subtotal line = Some (NFloat subtotal)
    /\ orders (snd (confirm_order Demo.env "ok confirm order" (PDict d)
                      default_response Demo.world))
       = [PDict (saved_order Demo.env d)]
    /\ dict_get "items" (saved_order Demo.env d) = Some (PList [line])
    /\ dict_get "totalAmount" (saved_order Demo.env d)
       = Some (PNum (NFloat subtotal)).
Proof.
  destruct (add_to_order_tool (get_all_products Demo.catalog) 5 "pizza" 2)
    as [e|d] eqn:Hrun; [discriminate|].
  assert (Hredirect : dict_get "redirect" d = Some (PBool true))
    by (injection Hrun as <-; reflexivity).
  assert (Hfault : insert_one_fault Demo.env (PDict (saved_order Demo.env d))
                   = None) by reflexivity.
  destruct (added_item_can_be_confirmed Demo.env _ _ _ _ d "ok confirm order"
              default_response Demo.world Hrun Hredirect eq_refl)
    as [Hstore _].
  destruct (Hstore ltac:(discriminate) Hfault)
    as [line [subtotal [Hline [Horders [_ [Hitems Htotal]]]]]].
  exists d, line, subtotal. repeat split; assumption.
Defined.

(** A lassi is added to the demo catalog, then asked for in capitals. *)
Lemma add_product_is_listed_witness :
  exists d w' found,
    add_product (inr "https://img/lassi.png") (inr "64f0c0fff2")
      "Lassi" "3" "Drinks" "Sweet lassi" Demo.world = (inr d, w')
    /\ List.length (products w') = 4%nat
    /\ resolve "Lassi" (flatten_products (get_all_products (products w')))
       = inr (Some found, [])
    /\ lower (p_name found) = "lassi".
Proof.
  destruct (add_product (inr "https://img/lassi.png") (inr "64f0c0fff2")
              "Lassi" "3" "Drinks" "Sweet lassi" Demo.world)
    as [[e|d] w'] eqn:Hrun; [discriminate|].
  destruct (add_product_is_listed _ _ _ _ _ _ _ _ _ Hrun)
    as [url [id [_ [_ [Hproducts [_ [_ [found [Hres Hname]]]]]]]]].
  exists d, w', found. split; [reflexivity|].
  split; [now rewrite Hproducts|]. split; assumption.
Defined.
